(** * retdec-utils: the command runner of [scripts/retdec-utils.py]

    A shallow embedding of [CmdRunner] (the runner of external commands):
    [run_cmd], [run_measured_cmd], [_run_cmd], [start] and the three text
    helpers [_strip_shell_colors], [_get_memory_from_measured_output] and
    [_get_clean_output_from_measured_output].

    Conventions of the embedding.
    - A Python [str] is a [string]; its characters are the code points
      below 256 (Rocq's [ascii]).  On that range [str.isspace], the regular
      expression class [\d] and [int()] agree with the tables below.
    - A Python [int] is a [Z]; a [float] is the rational it denotes.
    - [None] is [None]; a value that may be [None] is an [option].
    - An exception is the [Raised] branch of [result]. *)

From Stdlib Require Import ZArith QArith Qround Bool List Lia.
From Stdlib Require Import Ascii String.
Import ListNotations.

Close Scope Q_scope.
Open Scope string_scope.

(** ** Characters *)

Module Char.

Definition code (c : ascii) : nat := nat_of_ascii c.

(** The escape character [\x1b]. *)
Definition ESC : ascii := "027"%char.

Definition is_esc (c : ascii) : bool := Ascii.eqb c ESC.

Definition is_m (c : ascii) : bool := Ascii.eqb c "m"%char.

(** [str.isspace] on the code points below 256: TAB, LF, VT, FF, CR,
    the separators 0x1c to 0x1f, the space, NEL (0x85) and the no-break
    space (0xa0). *)
Definition isspace (c : ascii) : bool :=
  let n := code c in
  ((9 <=? n) && (n <=? 13) || (28 <=? n) && (n <=? 32)
   || (n =? 133) || (n =? 160))%nat.

(** The class [\d] on the code points below 256: the digits 0 to 9. *)
Definition isdigit (c : ascii) : bool :=
  let n := code c in ((48 <=? n) && (n <=? 57))%nat.

Definition digit_value (c : ascii) : Z := (Z.of_nat (code c) - 48)%Z.

End Char.

(** ** Text helpers of Python used by the runner *)

Module Str.

(** [s.rstrip()]: [s] without its trailing whitespace. *)
Fixpoint rstrip (s : string) : string :=
  match s with
  | EmptyString => EmptyString
  | String c s' =>
      match rstrip s' with
      | EmptyString => if Char.isspace c then EmptyString else String c EmptyString
      | r => String c r
      end
  end.

(** The last character of a text, when it has one. *)
Fixpoint last (s : string) : option ascii :=
  match s with
  | EmptyString => None
  | String c EmptyString => Some c
  | String _ s' => last s'
  end.

(** A text ends in whitespace. *)
Definition ends_with_space (s : string) : bool :=
  match last s with
  | Some c => Char.isspace c
  | None => false
  end.

(** [s.startswith(p)]. *)
Fixpoint startswith (p s : string) : bool :=
  match p, s with
  | EmptyString, _ => true
  | String a p', String b s' => Ascii.eqb a b && startswith p' s'
  | String _ _, EmptyString => false
  end.

(** [s.endswith(p)]. *)
Fixpoint endswith (p s : string) : bool :=
  String.eqb s p
  || match s with
     | EmptyString => false
     | String _ s' => endswith p s'
     end.

(** [s.find(sep)]: the index of the first occurrence of [sep] in [s]. *)
Fixpoint find (sep s : string) : option nat :=
  if startswith sep s then Some 0%nat
  else match s with
       | EmptyString => None
       | String _ s' => option_map S (find sep s')
       end.

(** [s[:n]]. *)
Fixpoint take (n : nat) (s : string) : string :=
  match n, s with
  | O, _ => EmptyString
  | S _, EmptyString => EmptyString
  | S n', String c s' => String c (take n' s')
  end.

(** [s.split(sep)[0]] for a non-empty [sep]: the text before the first
    occurrence of [sep], the whole text when [sep] does not occur. *)
Fixpoint split_head (sep s : string) : string :=
  if startswith sep s then EmptyString
  else match s with
       | EmptyString => EmptyString
       | String c s' => String c (split_head sep s')
       end.

(** Some character of [s] is an [m]. *)
Fixpoint has_m (s : string) : bool :=
  match s with
  | EmptyString => false
  | String c s' => Char.is_m c || has_m s'
  end.

(** The longest prefix of a text made of digits. *)
Fixpoint digits_prefix (s : string) : string :=
  match s with
  | EmptyString => EmptyString
  | String c s' => if Char.isdigit c then String c (digits_prefix s') else EmptyString
  end.

(** [int(g)] for a text of decimal digits, most significant first. *)
Fixpoint int_acc (acc : Z) (g : string) : Z :=
  match g with
  | EmptyString => acc
  | String c g' => int_acc (10 * acc + Char.digit_value c)%Z g'
  end.

Definition int (g : string) : Z := int_acc 0%Z g.

(** [s[n:]]. *)
Fixpoint drop (n : nat) (s : string) : string :=
  match n, s with
  | O, _ => s
  | S _, EmptyString => EmptyString
  | S n', String _ s' => drop n' s'
  end.

(** A character that occurs nowhere in a text. *)
Fixpoint absent (x : ascii) (s : string) : bool :=
  match s with
  | EmptyString => true
  | String c s' => negb (Ascii.eqb x c) && absent x s'
  end.

Fixpoint all_digits (s : string) : bool :=
  match s with
  | EmptyString => true
  | String c s' => Char.isdigit c && all_digits s'
  end.

End Str.

(** ** [_strip_shell_colors]

    [re.sub(r'\x1b[^m]*m', '', text)].  The pattern matches at an escape
    character exactly when some [m] follows it, and the match then ends at
    the first such [m]: the class [[^m]] accepts every other character,
    line ends and further escape characters included.  [re.sub] replaces
    the matches from left to right without overlap, so the scan resumes
    after the [m] that closed a match. *)

Fixpoint _strip_shell_colors (text : string) : string :=
  match text with
  | EmptyString => EmptyString
  | String c rest =>
      if Char.is_esc c && Str.has_m rest then skip_color rest
      else String c (_strip_shell_colors rest)
  end
with skip_color (text : string) : string :=
  match text with
  | EmptyString => EmptyString
  | String c rest =>
      if Char.is_m c then _strip_shell_colors rest else skip_color rest
  end.

(** [re.search(r'\x1b[^m]*m', text)] finds a match. *)
Fixpoint has_shell_color (text : string) : bool :=
  match text with
  | EmptyString => false
  | String c rest => (Char.is_esc c && Str.has_m rest) || has_shell_color rest
  end.

(** ** Exceptions and results *)

Inductive exn : Type :=
| TimeoutExpired   (* subprocess.TimeoutExpired *)
| OverflowError
| IndexError
| OSError.         (* the process could not be created *)

Definition exn_eqb (a b : exn) : bool :=
  match a, b with
  | TimeoutExpired, TimeoutExpired | OverflowError, OverflowError
  | IndexError, IndexError | OSError, OSError => true
  | _, _ => false
  end.

Inductive result (A : Type) : Type :=
| Returned (a : A)
| Raised (e : exn).

Arguments Returned {A} a.
Arguments Raised {A} e.

(** ** Numbers *)

(** [int(x)] for a float [x]: the fraction is dropped, towards zero. *)
Definition int_of_float (x : Q) : Z := Z.quot (Qnum x) (Zpos (Qden x)).

(** [a / 2^s] to the nearest integer, a tie going to the even one. *)
Definition round_half_even_shr (a s : Z) : Z :=
  let q := Z.shiftr a s in
  let r := Z.land a (Z.ones s) in
  let half := Z.shiftl 1 (s - 1) in
  if (r <? half)%Z then q
  else if (half <? r)%Z then (q + 1)%Z
  else if Z.even q then q else (q + 1)%Z.

(** [a / 1024] for an [int] [a >= 0]: Python's true division gives the
    binary64 float nearest to the quotient (53 significant bits, ties to
    even) and raises [OverflowError] when that float would not be finite.
    Dividing by [2^10] only moves the exponent, so the significand is the
    one of [a].  The one caller passes [int] of a run of digits. *)
Definition truediv_1024 (a : Z) : result Q :=
  let bits := if (a =? 0)%Z then 0%Z else (Z.log2 a + 1)%Z in
  let a' := if (bits <=? 53)%Z then a
            else let s := (bits - 53)%Z in
                 Z.shiftl (round_half_even_shr a s) s in
  if (2 ^ 1034 <=? a')%Z then Raised OverflowError
  else Returned (Qmake a' 1024).

(** ** [_get_memory_from_measured_output] *)

Definition MEMORY_MARKER : string := "Maximum resident set size (kbytes): ".

(** The pattern [Maximum resident set size \(kbytes\): (\d+)] matched at
    the start of a text: group 1, the digits after the marker, as many as
    there are (at least one). *)
Definition match_memory (text : string) : option string :=
  if Str.startswith MEMORY_MARKER text then
    match Str.digits_prefix (Str.drop (String.length MEMORY_MARKER) text) with
    | EmptyString => None
    | g => Some g
    end
  else None.

(** [re.search] with that pattern: group 1 of the leftmost match. *)
Fixpoint search_memory (output : string) : option string :=
  match match_memory output with
  | Some g => Some g
  | None =>
      match output with
      | EmptyString => None
      | String _ rest => search_memory rest
      end
  end.

(** [int(g)] is taken without a bound on the digits, as before Python
    3.11; from then on more than 4300 digits make [int] raise, where this
    model raises at the division that follows. *)
Definition _get_memory_from_measured_output (output : string) : result Z :=
  let memory := 0%Z in
  match search_memory output with
  | Some g =>
      match g with
      | EmptyString => Returned memory
      | _ =>
          let memory_kb := Str.int g in
          match truediv_1024 memory_kb with
          | Raised e => Raised e
          | Returned x =>
              let memory := int_of_float x in
              Returned (if (memory =? 0)%Z then 1%Z else memory)
          end
      end
  | None => Returned memory
  end.

(** ** [_get_clean_output_from_measured_output] *)

Definition BEING_TIMED : string := "Command being timed:".
Definition NON_ZERO_STATUS : string := "Command exited with non-zero status".

Definition _get_clean_output_from_measured_output (output : string) : string :=
  let out := output in
  let out := Str.split_head BEING_TIMED out in
  let out := Str.split_head NON_ZERO_STATUS out in
  let out := Str.rstrip out in
  out.

(** The same in the words of the description: the text before the earlier
    of the two markers (the whole text when neither occurs), its trailing
    whitespace trimmed. *)
Definition cut_point (output : string) : option nat :=
  match Str.find BEING_TIMED output, Str.find NON_ZERO_STATUS output with
  | Some a, Some b => Some (Nat.min a b)
  | Some a, None => Some a
  | None, Some b => Some b
  | None, None => None
  end.

Definition before_trailer (output : string) : string :=
  Str.rstrip match cut_point output with
             | Some n => Str.take n output
             | None => output
             end.

(** ** The host: configuration, operating system and child processes *)

(** What a started command does.  Every command ends on its own after
    [duration] seconds.  Asked to end after [t] seconds (by the signal of
    [os.killpg] or by [taskkill]) it ends at once or, when it handles the
    request, later: [drained t] is all it has written when it has ended,
    which is [written_by t] in the first case and more in the second.  A
    command that never ends, left alone or asked to end, has no behaviour
    here: the [communicate] that waits for it does not return. *)
Record behaviour : Type := {
  duration : Q;                  (* seconds it runs when nobody stops it *)
  written : string;              (* what it writes to stdout and stderr in that time *)
  written_by : Q -> string;      (* what it has written t seconds after its start *)
  drained : Q -> string;         (* what it has written when it has ended, asked to end after t seconds *)
  returncode : Z;                (* its exit status when it ends on its own *)
  returncode_killed : Z          (* its exit status when it was asked to end *)
}.

Record host : Type := {
  LOG_TIME : list string;        (* config.LOG_TIME: the measurement utility and its flags *)
  sys_platform : string;         (* sys.platform *)
  os_name : string;              (* os.name *)
  sys_executable : string;       (* sys.executable *)
  which : string -> option string;   (* shutil.which *)
  (* process creation for an argument list: [None] when it fails; otherwise
     what the process does with the text it is fed on stdin *)
  spawn : list string -> option (string -> behaviour)
}.

Inductive signum : Type := SIGINT | SIGTERM.

(** What the runner does to the outside, in order. *)
Inductive event : Type :=
| Launch (args : list string) (piped : bool)   (* a process is created *)
| Handle (sig : signum)                        (* signal.signal(sig, signal_handler) *)
| Communicate (input : string) (timeout : option Q)
| Killpg (sig : signum)                        (* os.killpg(pid, sig) *)
| Taskkill                                     (* taskkill /F /T /PID pid *)
| Drain.                                       (* communicate() after the kill *)

(** Computations of the runner: they append to the log of events and
    return or raise. *)
Definition M (A : Type) : Type := list event -> list event * result A.

Definition ret {A} (a : A) : M A := fun log => (log, Returned a).

Definition raise {A} (e : exn) : M A := fun log => (log, Raised e).

Definition bind {A B} (m : M A) (k : A -> M B) : M B :=
  fun log =>
    match m log with
    | (log', Returned a) => k a log'
    | (log', Raised e) => (log', Raised e)
    end.

Definition emit (e : event) : M unit := fun log => ((log ++ [e])%list, Returned tt).

Definition lift {A} (r : result A) : M A := fun log => (log, r).

(** [try: body except caught: handler]. *)
Definition try_except {A} (body : M A) (caught : exn) (handler : M A) : M A :=
  fun log =>
    match body log with
    | (log', Raised e) => if exn_eqb e caught then handler log' else (log', Raised e)
    | done => done
    end.

Declare Scope runner_scope.
Delimit Scope runner_scope with runner.
Notation "x <- m ;; k" := (bind m (fun x => k))
  (at level 61, m at next level, right associativity) : runner_scope.
Notation "' pat <- m ;; k" := (bind m (fun x => match x with pat => k end))
  (at level 61, pat pattern, m at next level, right associativity) : runner_scope.
Notation "m ;; k" := (bind m (fun _ => k))
  (at level 61, right associativity) : runner_scope.

(** The whole effect of a computation started with an empty log. *)
Definition run {A} (m : M A) : list event * result A := m [].

(** The result alone. *)
Definition value {A} (m : M A) : result A := snd (run m).

Module Utils.

Definition is_windows (h : host) : bool :=
  String.eqb (sys_platform h) "win32" || String.eqb (sys_platform h) "msys"
  || String.eqb (os_name h) "nt".

Definition tool_exists (h : host) (tool_name : string) : bool :=
  match which h tool_name with
  | Some _ => true
  | None => false
  end.

End Utils.

(** A handle to a started command ([subprocess.Popen]). *)
Record Popen : Type := {
  args : list string;
  stdout_piped : bool;
  windows : bool;                (* a [_WindowsProcess], not a [_LinuxProcess] *)
  reaction : string -> behaviour
}.

(** [subprocess.Popen(args=..., stdin=PIPE, stdout=PIPE or None, ...)]. *)
Definition Popen_init (h : host) (args : list string) (piped windows : bool)
  : M Popen :=
  match spawn h args with
  | None => raise OSError
  | Some r =>
      (emit (Launch args piped) ;;
       ret {| args := args; stdout_piped := piped; windows := windows;
              reaction := r |})%runner
  end.

(** [_LinuxProcess.__init__]: the process is made the leader of a session
    of its own, so that a signal to its group reaches its children. *)
Definition _LinuxProcess (h : host) (args : list string) (piped : bool) : M Popen :=
  Popen_init h args piped false.

(** [_WindowsProcess.__init__]: a Python script is run through the
    interpreter. *)
Definition windows_args (h : host) (args : list string) : list string :=
  match args with
  | a :: _ => if Str.endswith ".py" a then sys_executable h :: args else args
  | [] => args
  end.

Definition _WindowsProcess (h : host) (args : list string) (piped : bool) : M Popen :=
  Popen_init h (windows_args h args) piped true.

(** What [communicate] hands back for the text a process wrote: the text
    when stdout is a pipe (the empty text when nothing was written),
    [None] when the process writes to the inherited streams. *)
Definition captured (piped : bool) (text : string) : option string :=
  if piped then Some text else None.

Definition expires (timeout : option Q) (b : behaviour) : bool :=
  match timeout with
  | Some t => negb (Qle_bool (duration b) t)
  | None => false
  end.

(** [p.communicate(input, timeout)], with [p.returncode] as second
    component. *)
Definition communicate (p : Popen) (input : string) (timeout : option Q)
  : M (option string * Z) :=
  (emit (Communicate input timeout) ;;
   let b := reaction p input in
   if expires timeout b then raise TimeoutExpired
   else ret (captured (stdout_piped p) (written b), returncode b))%runner.

(** [p.kill()]: the process and its children are ended, by a signal to
    the process group or by [taskkill]. *)
Definition kill (p : Popen) : M unit :=
  if windows p then emit Taskkill else emit (Killpg SIGTERM).

(** [p.communicate()] on a process that was fed [input] and asked to end
    after [t] seconds: the wait has no timeout and lasts until the process
    has ended. *)
Definition communicate_killed (p : Popen) (input : string) (t : Q)
  : M (option string * Z) :=
  (emit Drain ;;
   let b := reaction p input in
   ret (captured (stdout_piped p) (drained b t), returncode_killed b))%runner.

(** Truth value of [output] in [if output:]. *)
Definition truthy (output : option string) : bool :=
  match output with
  | Some (String _ _) => true
  | _ => false
  end.

(** ** [CmdRunner] *)

Definition TIMEOUT_RC : Z := 137.

Definition start (h : host) (cmd : list string) (buffer_output : bool) : M Popen :=
  if Utils.is_windows h then _WindowsProcess h cmd buffer_output
  else _LinuxProcess h cmd buffer_output.

(** The argument list [start] hands to the operating system. *)
Definition launched (h : host) (cmd : list string) : list string :=
  if Utils.is_windows h then windows_args h cmd else cmd.

(** The event of [kill] on a process of that host. *)
Definition kill_event (h : host) : event :=
  if Utils.is_windows h then Taskkill else Killpg SIGTERM.

(** The command [_run_cmd] starts once it is settled whether memory is
    tracked. *)
Definition wrapped (h : host) (tracked : bool) (cmd : list string) : list string :=
  if tracked then (LOG_TIME h ++ cmd)%list else cmd.

(** [output.rstrip()] followed by [_strip_shell_colors], guarded by
    [if output:]: the two lines both branches of [_run_cmd] share. *)
Definition tidy (output : option string) : option string :=
  if truthy output then
    let output := option_map Str.rstrip output in
    let output := option_map _strip_shell_colors output in
    output
  else output.

(** [config.LOG_TIME[0]]. *)
Definition LOG_TIME_0 (h : host) : M string :=
  match LOG_TIME h with
  | t :: _ => ret t
  | [] => raise IndexError
  end.

(** [track_memory and Utils.tool_exists(config.LOG_TIME[0])]. *)
Definition tracks_memory (h : host) (track_memory : bool) : M bool :=
  (if track_memory then (t <- LOG_TIME_0 h ;; ret (Utils.tool_exists h t))
   else ret false)%runner.

(** [_run_cmd] returns [(memory, output, return_code, timeouted)].  The
    [try] is opened where the wait starts: what precedes it in the source
    raises no [TimeoutExpired], and the handler needs the handle [p]. The
    timeout that expired is the one that was passed, [0] standing for an
    absent one (which never expires).  [Handle] records that
    [signal_handler] is installed; its body, [p.kill()], runs when a
    signal reaches the runner during the wait, which no run of this
    model has. *)
Definition _run_cmd (h : host) (cmd : list string) (input : string)
    (timeout : option Q) (buffer_output track_memory : bool)
  : M (Z * option string * Z * bool) :=
  (let memory := 0%Z in
   track_memory <- tracks_memory h track_memory ;;
   let cmd := if track_memory then (LOG_TIME h ++ cmd)%list else cmd in
   p <- start h cmd buffer_output ;;
   emit (Handle SIGINT) ;;
   emit (Handle SIGTERM) ;;
   try_except
     ('(output, returncode) <- communicate p input timeout ;;
      if truthy output then
        let output := option_map Str.rstrip output in
        let output := option_map _strip_shell_colors output in
        if track_memory then
          memory <- lift (match output with
                          | Some o => _get_memory_from_measured_output o
                          | None => Returned memory
                          end) ;;
          let output := option_map _get_clean_output_from_measured_output output in
          ret (memory, output, returncode, false)
        else ret (memory, output, returncode, false)
      else ret (memory, output, returncode, false))
     TimeoutExpired
     (kill p ;;
      '(output, _) <- communicate_killed p input
                        (match timeout with Some t => t | None => 0%Q end) ;;
      let output :=
        if truthy output then
          let output := option_map Str.rstrip output in
          let output := option_map _strip_shell_colors output in
          output
        else output in
      ret (memory, output, TIMEOUT_RC, true)))%runner.

(** [run_cmd] returns [(output, return_code, timeouted)]. *)
Definition run_cmd (h : host) (cmd : list string) (input : string)
    (timeout : option Q) (buffer_output : bool)
  : M (option string * Z * bool) :=
  ('(_, output, return_code, timeouted) <-
     _run_cmd h cmd input timeout buffer_output false ;;
   ret (output, return_code, timeouted))%runner.

(** The seconds reported for two readings of [time.time()].  Clock readings
    are floats of like magnitude, whose difference binary64 computes
    exactly. *)
Definition elapsed_seconds (start now : Q) : Z :=
  let elapsed := int_of_float (now - start)%Q in
  if (elapsed =? 0)%Z then 1%Z else elapsed.

(** [run_measured_cmd] returns [(memory, elapsed_time, output, return_code)];
    [start] and [now] are the readings of [time.time()] before and after
    the run. *)
Definition run_measured_cmd (h : host) (start now : Q) (cmd : list string)
    (input : string) (timeout : option Q)
  : M (Z * Z * option string * Z) :=
  ('(memory, output, rc, _) <- _run_cmd h cmd input timeout true true ;;
   let elapsed := elapsed_seconds start now in
   ret (memory, elapsed, output, rc))%runner.

(** ** The description's wording, for comparison *)



(** "floor(k/1024), with a floor of 1 applied when that quotient is 0 and
    the tool reported any nonzero memory". *)
Definition memory_mb_described (k : Z) : Z :=
  let q := (k / 1024)%Z in
  if (q =? 0)%Z && negb (k =? 0)%Z then 1%Z else q.

(** ** Sample data *)

Module Sample.

Definition nl : string := String "010"%char "".
Definition quote : string := String "034"%char "".
Definition esc : string := String Char.ESC "".

(** A line of output and the indentation of the report that follows. *)
Definition indent : string := "out" ++ nl ++ "    ".

(** The captured text of a measured run that printed [hello]. *)
Definition measured_hello : string :=
  "hello" ++ nl ++
  "    Command being timed: " ++ quote ++ "x" ++ quote ++ nl ++
  "    Maximum resident set size (kbytes): 4096" ++ nl.

(** A colored word, the color reset after the space that follows it. *)
Definition colored : string := esc ++ "[31mabc " ++ esc ++ "[0m".

(** A command that runs for two seconds, writes [text] when it is left
    alone, has written [partial] whenever it is asked to end, which ends
    it at once, and exits with status 0. *)
Definition writes (text partial : string) : behaviour :=
  {| duration := 2;
     written := text;
     written_by := fun _ => partial;
     drained := fun _ => partial;
     returncode := 0;
     returncode_killed := (-15) |}.

(** A Linux host on which every command behaves as [b]; [time_path] is
    where the measurement utility is found, if it is. *)
Definition linux (time_path : option string) (b : behaviour) : host :=
  {| LOG_TIME := ["/usr/bin/time"; "-v"];
     sys_platform := "linux";
     os_name := "posix";
     sys_executable := "/usr/bin/python3";
     which := fun _ => time_path;
     spawn := fun _ => Some (fun _ => b) |}.

(** A command that is killed after writing [part ], or writes [done]. *)
Definition slow : behaviour := writes "done" ("part " ++ nl).

Definition slow_host : host := linux None slow.

(** A host whose commands write nothing. *)
Definition silent_host : host := linux None (writes "" "").

(** A host without the measurement utility, whose commands write the
    text of a measured run all the same. *)
Definition bare_host : host := linux None (writes measured_hello "").

(** A Windows host. *)
Definition windows_host (b : behaviour) : host :=
  {| LOG_TIME := ["/usr/bin/time"; "-v"];
     sys_platform := "win32";
     os_name := "nt";
     sys_executable := "python.exe";
     which := fun _ => None;
     spawn := fun _ => Some (fun _ => b) |}.

End Sample.

(** ** Patterns of the number tests

    The patterns of [Utils.is_decimal_number] and its siblings are built
    from three pieces.  Each is given the matcher of what follows it. *)

Module Re.

(** The line feed. *)
Definition LF : string := String "010"%char "".

(** The class [[0-9a-fA-F]]. *)
Definition ishex (c : ascii) : bool :=
  let n := Char.code c in
  ((48 <=? n) && (n <=? 57) || (97 <=? n) && (n <=? 102)
   || (65 <=? n) && (n <=? 70))%nat.

Fixpoint all (f : ascii -> bool) (s : string) : bool :=
  match s with
  | EmptyString => true
  | String c s' => f c && all f s'
  end.

Fixpoint drop_while (f : ascii -> bool) (s : string) : string :=
  match s with
  | EmptyString => EmptyString
  | String c s' => if f c then drop_while f s' else s
  end.

Fixpoint take_while (f : ascii -> bool) (s : string) : string :=
  match s with
  | EmptyString => EmptyString
  | String c s' => if f c then String c (take_while f s') else EmptyString
  end.

(** A text that does not go on with a character of the class. *)
Definition stops (f : ascii -> bool) (s : string) : bool :=
  match s with
  | EmptyString => true
  | String c _ => negb (f c)
  end.

(** [$] without [re.MULTILINE]: the end of the text, or the line feed
    that ends it. *)
Definition dollar (s : string) : bool := String.eqb s "" || String.eqb s LF.

(** A class repeated with [+], then [k].  The repetition takes all the
    characters of the class there are: in the patterns below what follows
    is [$] or [-], which match at no character of the class, so giving
    characters back finds no other match. *)
Definition plus (f : ascii -> bool) (k : string -> bool) (s : string) : bool :=
  match s with
  | EmptyString => false
  | String c _ => f c && k (drop_while f s)
  end.

(** A literal text, then [k]. *)
Definition lit (p : string) (k : string -> bool) (s : string) : bool :=
  Str.startswith p s && k (Str.drop (String.length p) s).

End Re.

(** ** The number tests of [Utils]

    Each returns the match object of [re.search] or [None]; the model
    gives its truth value.  The argument is the text [str(num)]; the
    patterns start with [^], so the search matches at the start only. *)

(** [re.search('^[0-9]+$', str(num))]. *)
Definition is_decimal_number (num : string) : bool :=
  Re.plus Char.isdigit Re.dollar num.

(** [re.search('^0x[0-9a-fA-F]+$', str(num))]. *)
Definition is_hexadecimal_number (num : string) : bool :=
  Re.lit "0x" (Re.plus Re.ishex Re.dollar) num.

Definition is_number (num : string) : bool :=
  is_decimal_number num || is_hexadecimal_number num.

(** [re.search('^[0-9]+-[0-9]+$', str(range))]. *)
Definition is_decimal_range (range : string) : bool :=
  Re.plus Char.isdigit (Re.lit "-" (Re.plus Char.isdigit Re.dollar)) range.

(** [re.search('^0x[0-9a-fA-F]+-0x[0-9a-fA-F]+$', str(range))]. *)
Definition is_hexadecimal_range (range : string) : bool :=
  Re.lit "0x"
    (Re.plus Re.ishex
       (Re.lit "-" (Re.lit "0x" (Re.plus Re.ishex Re.dollar)))) range.

Definition is_range (range : string) : bool :=
  is_decimal_range range || is_hexadecimal_range range.

(** ** [int(text)]

    Whitespace around the number is skipped; a sign may come first; the
    digits may be grouped by single underscores.  [None] stands for
    [ValueError].  As in [Str.int] the digits are not bounded in number. *)

Module Int.

(** The whitespace [int] skips: TAB to CR and the space, NEL and the
    no-break space; not the separators 0x1c to 0x1f, which [str.isspace]
    accepts. *)
Definition isspace (c : ascii) : bool :=
  let n := Char.code c in
  ((9 <=? n) && (n <=? 13) || (n =? 32) || (n =? 133) || (n =? 160))%nat.

Definition is_underscore (c : ascii) : bool := Ascii.eqb c "_"%char.

Fixpoint digits (acc : Z) (s : string) : option Z :=
  match s with
  | EmptyString => Some acc
  | String c s' =>
      if Char.isdigit c then digits (10 * acc + Char.digit_value c)%Z s'
      else if is_underscore c then
        match s' with
        | String d s'' =>
            if Char.isdigit d then digits (10 * acc + Char.digit_value d)%Z s''
            else None
        | EmptyString => None
        end
      else if Re.all isspace s then Some acc else None
  end.

Definition magnitude (s : string) : option Z :=
  match s with
  | String c s' => if Char.isdigit c then digits (Char.digit_value c) s' else None
  | EmptyString => None
  end.

Definition parse (text : string) : option Z :=
  match Re.drop_while isspace text with
  | String c s' =>
      if Ascii.eqb c "+"%char then magnitude s'
      else if Ascii.eqb c "-"%char then option_map Z.opp (magnitude s')
      else magnitude (String c s')
  | EmptyString => None
  end.

End Int.

(** ** [Utils.archive_object_count] *)

(** The tools the configuration names ([config.AR], [config.EXTRACT]). *)
Record tools : Type := {
  AR : string;
  EXTRACT : string
}.

(** What ends a call besides a returned value: an exception the runner
    let through, or one of [int]. *)
Inductive failure : Type :=
| Uncaught (e : exn)
| ValueError
| TypeError.

Inductive outcome (A : Type) : Type :=
| Done (a : A)
| Failed (f : failure).

Arguments Done {A} a.
Arguments Failed {A} f.

(** [int(output) if rc == 0 else 1] on the result of
    [run_cmd([config.AR, path, '--object-count'], buffer_output=True)]. *)
Definition archive_object_count (c : tools) (h : host) (path : string)
  : list event * outcome Z :=
  match run (run_cmd h [AR c; path; "--object-count"] "" None true) with
  | (log, Raised e) => (log, Failed (Uncaught e))
  | (log, Returned (output, rc, _)) =>
      (log,
       if (rc =? 0)%Z then
         match output with
         | Some o =>
             match Int.parse o with
             | Some n => Done n
             | None => Failed ValueError
             end
         | None => Failed TypeError
         end
       else Done 1%Z)
  end.

(** ** [Unbuffered] *)

(** A text stream: what it holds back, what has reached its destination,
    and when it empties itself without being asked. *)
Module Stream.

Record t : Type := {
  flushes_at : string -> bool;   (* the stream lets go of this much by itself *)
  pending : string;              (* written, not yet passed on *)
  sink : string                  (* passed on *)
}.

Definition flush (st : t) : t :=
  {| flushes_at := flushes_at st;
     pending := "";
     sink := sink st ++ pending st |}.

Definition write (st : t) (data : string) : t :=
  let held := pending st ++ data in
  if flushes_at st held then
    {| flushes_at := flushes_at st; pending := ""; sink := sink st ++ held |}
  else
    {| flushes_at := flushes_at st; pending := held; sink := sink st |}.

Definition writelines (st : t) (datas : list string) : t :=
  fold_left write datas st.

(** All that was written, in order. *)
Definition content (st : t) : string := sink st ++ pending st.

(** The texts of a list, one after the other. *)
Definition joined (datas : list string) : string :=
  fold_right append "" datas.

End Stream.

Module Unbuffered.

Definition write (stream : Stream.t) (data : string) : Stream.t :=
  let stream := Stream.write stream data in
  Stream.flush stream.

Definition writelines (stream : Stream.t) (datas : list string) : Stream.t :=
  let stream := Stream.writelines stream datas in
  Stream.flush stream.

End Unbuffered.

(** A text wrapped in two color sequences, as a tool prints it. *)
Definition colored_with (code code' text : string) : string :=
  String Char.ESC (code ++ "m") ++ text ++ String Char.ESC (code' ++ "m").

(** ** More sample data *)

Module Cases.

(** The digits of [10^312], a number above [2^1034]. *)
Definition huge : string := "1" ++ concat "" (List.repeat "000000000000" 26).

(** The tools of a configuration. *)
Definition config : tools := {| AR := "retdec-ar-extractor"; EXTRACT := "retdec-macho-extractor" |}.

(** A command that exits with [rc] having written [text]. *)
Definition exits (rc : Z) (text : string) : behaviour :=
  {| duration := 1;
     written := text;
     written_by := fun _ => "";
     drained := fun _ => "";
     returncode := rc;
     returncode_killed := (-15) |}.

(** A host on which no command can be started. *)
Definition no_such_command : host :=
  {| LOG_TIME := ["/usr/bin/time"; "-v"];
     sys_platform := "linux";
     os_name := "posix";
     sys_executable := "/usr/bin/python3";
     which := fun _ => None;
     spawn := fun _ => None |}.

(** A host whose configuration names no measurement utility. *)
Definition unconfigured : host :=
  {| LOG_TIME := [];
     sys_platform := "linux";
     os_name := "posix";
     sys_executable := "/usr/bin/python3";
     which := fun _ => None;
     spawn := fun _ => Some (fun _ => exits 0 "") |}.

(** A command that ignores the request to end: it writes [part], sleeps
    for three seconds, writes [done] and exits with status 0. *)
Definition trap_command : list string :=
  ["sh"; "-c"; "trap '' TERM; echo part; sleep 3; echo done"].

Definition trapping : behaviour :=
  {| duration := 3;
     written := "part" ++ Re.LF ++ "done" ++ Re.LF;
     written_by := fun t => if Qle_bool 3 t
                            then "part" ++ Re.LF ++ "done" ++ Re.LF
                            else "part" ++ Re.LF;
     drained := fun _ => "part" ++ Re.LF ++ "done" ++ Re.LF;
     returncode := 0;
     returncode_killed := 0 |}.

Definition trapping_host : host :=
  {| LOG_TIME := ["/usr/bin/time"; "-v"];
     sys_platform := "linux";
     os_name := "posix";
     sys_executable := "/usr/bin/python3";
     which := fun _ => Some "/usr/bin/time";
     spawn := fun _ => Some (fun _ => trapping) |}.

(** A stream that holds back what it is given until it sees a line feed. *)
Definition line_buffered (held : string) : Stream.t :=
  {| Stream.flushes_at := fun t => match Str.find Re.LF t with Some _ => true | None => false end;
     Stream.pending := held;
     Stream.sink := "" |}.

End Cases.

(** * Properties *)

(** ** Color stripping *)

Section Colors.

Lemma has_m_false_strip (s : string) :
  Str.has_m s = false -> _strip_shell_colors s = s.
Proof.
  induction s as [|c s IH]; simpl; intros H; [reflexivity|].
  apply orb_false_elim in H as [_ Hs].
  rewrite Hs, andb_false_r. now rewrite IH.
Qed.

(** Neither the stripped text nor the rest of a skipped sequence holds a
    color sequence. *)
Lemma strip_skip_no_color (s : string) :
  has_shell_color (_strip_shell_colors s) = false
  /\ has_shell_color (skip_color s) = false.
Proof.
  induction s as [|c s [IHstrip IHskip]]; simpl; [now split|].
  split.
  - destruct (Char.is_esc c) eqn:Hesc; simpl.
    + destruct (Str.has_m s) eqn:Hm; [exact IHskip|].
      simpl. rewrite Hesc, IHstrip.
      rewrite (has_m_false_strip s Hm), Hm. reflexivity.
    + simpl. now rewrite Hesc, IHstrip.
  - now destruct (Char.is_m c).
Qed.

Lemma strip_no_color (s : string) :
  has_shell_color (_strip_shell_colors s) = false.
Proof. apply strip_skip_no_color. Qed.

Lemma no_color_strip (s : string) :
  has_shell_color s = false -> _strip_shell_colors s = s.
Proof.
  induction s as [|c s IH]; simpl; intros H; [reflexivity|].
  apply orb_false_elim in H as [Hc Hs].
  rewrite Hc. now rewrite IH.
Qed.

End Colors.

(** C6. Stripping the shell colors is idempotent: stripping a text that
    was already stripped changes nothing. *)
Theorem strip_shell_colors_idempotent (text : string) :
  _strip_shell_colors (_strip_shell_colors text) = _strip_shell_colors text.
Proof.
  apply no_color_strip, strip_no_color.
Qed.

(** ** Cutting the measurement report *)

Section Cut.

Lemma startswith_cons (a b : ascii) (p s : string) :
  Str.startswith (String a p) (String b s)
  = Ascii.eqb a b && Str.startswith p s.
Proof. reflexivity. Qed.

(** The head of a split is a prefix of the text. *)
Lemma startswith_split_head (sep : string) :
  forall p s, Str.startswith p (Str.split_head sep s) = true ->
              Str.startswith p s = true.
Proof.
  induction p as [|x p IH]; intros s H; [reflexivity|].
  destruct s as [|c s]; simpl in H.
  - now destruct (Str.startswith sep "").
  - destruct (Str.startswith sep (String c s)); [discriminate|].
    simpl in *. apply andb_true_iff in H as [Hx Hp].
    rewrite Hx. now apply IH.
Qed.

(** A prefix free of the separator's first character survives the split. *)
Lemma startswith_before_split (a : ascii) (sep' : string) :
  forall p s, Str.absent a p = true ->
              Str.startswith p s = true ->
              Str.startswith p (Str.split_head (String a sep') s) = true.
Proof.
  induction p as [|x p IH]; intros s Ha H; [reflexivity|].
  destruct s as [|c s]; [discriminate|].
  simpl in Ha, H.
  apply andb_true_iff in Ha as [Hax Hap].
  apply andb_true_iff in H as [Hxc Hp].
  apply Ascii.eqb_eq in Hxc; subst c.
  cbn [Str.split_head Str.startswith].
  apply negb_true_iff in Hax. rewrite Hax. simpl.
  rewrite Ascii.eqb_refl. now apply IH.
Qed.

(** Splitting at a separator leaves unchanged whether a text starts
    with a marker whose tail is free of the separator's first character. *)
Lemma startswith_split_same (a : ascii) (sep' p : string) (s : string) :
  Str.absent a p = true ->
  Str.startswith p (Str.split_head (String a sep') s) = Str.startswith p s.
Proof.
  intros Ha.
  destruct (Str.startswith p s) eqn:Hs.
  - now apply startswith_before_split.
  - destruct (Str.startswith p (Str.split_head (String a sep') s)) eqn:Hc;
      [|reflexivity].
    apply startswith_split_head in Hc. congruence.
Qed.

Lemma split_head_find (sep : string) (s : string) :
  Str.split_head sep s =
  match Str.find sep s with Some n => Str.take n s | None => s end.
Proof.
  induction s as [|c s IH].
  - simpl. now destruct (Str.startswith sep "").
  - cbn [Str.split_head Str.find].
    destruct (Str.startswith sep (String c s)); [reflexivity|].
    rewrite IH. now destruct (Str.find sep s).
Qed.

(** The two splits of the source cut at the earlier marker. *)
Lemma two_splits_cut (output : string) :
  Str.split_head NON_ZERO_STATUS (Str.split_head BEING_TIMED output) =
  match cut_point output with
  | Some n => Str.take n output
  | None => output
  end.
Proof.
  unfold cut_point.
  induction output as [|c s IH]; [reflexivity|].
  cbn [Str.split_head Str.find].
  destruct (Str.startswith BEING_TIMED (String c s)) eqn:HA.
  - now destruct (Str.startswith NON_ZERO_STATUS (String c s));
      [|destruct (Str.find NON_ZERO_STATUS s)].
  - replace (Str.split_head NON_ZERO_STATUS
               (String c (Str.split_head BEING_TIMED s)))
      with (if Str.startswith NON_ZERO_STATUS (String c s) then ""
            else String c (Str.split_head NON_ZERO_STATUS
                             (Str.split_head BEING_TIMED s))).
    + destruct (Str.startswith NON_ZERO_STATUS (String c s)).
      * now destruct (Str.find BEING_TIMED s).
      * rewrite IH.
        now destruct (Str.find BEING_TIMED s), (Str.find NON_ZERO_STATUS s).
    + cbn [Str.split_head].
      replace (Str.startswith NON_ZERO_STATUS
                 (String c (Str.split_head BEING_TIMED s)))
        with (Str.startswith NON_ZERO_STATUS (String c s)); [reflexivity|].
      unfold NON_ZERO_STATUS. rewrite !startswith_cons. f_equal.
      symmetry.
      apply (startswith_split_same "C" "ommand being timed:"). reflexivity.
Qed.

End Cut.

(** C3. The cleaned output of a measured run is the text before the
    earlier of the markers [Command being timed:] and [Command exited with
    non-zero status], without its trailing whitespace; the sample text
    cleans to [hello] and reports 4 megabytes, also as the result of a
    measured run whose command wrote it. *)
Theorem clean_output_cuts_at_first_marker :
  (forall output,
     _get_clean_output_from_measured_output output = before_trailer output)
  /\ _get_clean_output_from_measured_output Sample.measured_hello = "hello"
  /\ _get_memory_from_measured_output Sample.measured_hello = Returned 4%Z
  /\ value (run_measured_cmd
              (Sample.linux (Some "/usr/bin/time")
                 (Sample.writes Sample.measured_hello ""))
              10 (47 # 4) ["ls"] "" None)
     = Returned (4%Z, 1%Z, Some "hello", 0%Z).
Proof.
  split; [|split; [|split]].
  - intros output. unfold _get_clean_output_from_measured_output, before_trailer.
    now rewrite two_splits_cut.
  - reflexivity.
  - vm_compute. reflexivity.
  - vm_compute. reflexivity.
Qed.

(** ** Reading the peak memory *)

Section Memory.

Lemma isdigit_value (c : ascii) :
  Char.isdigit c = true -> (0 <= Char.digit_value c <= 9)%Z.
Proof.
  unfold Char.isdigit, Char.digit_value. cbv zeta. intros H.
  apply andb_true_iff in H as [Hlo Hhi].
  apply Nat.leb_le in Hlo. apply Nat.leb_le in Hhi. lia.
Qed.

Lemma int_acc_nonneg (g : string) :
  forall acc, Str.all_digits g = true -> (0 <= acc)%Z ->
              (0 <= Str.int_acc acc g)%Z.
Proof.
  induction g as [|c g IH]; cbn [Str.int_acc Str.all_digits];
    intros acc Hd Hacc; [exact Hacc|].
  apply andb_true_iff in Hd as [Hc Hg].
  apply IH; [exact Hg|]. pose proof (isdigit_value c Hc). lia.
Qed.

Lemma int_nonneg (g : string) :
  Str.all_digits g = true -> (0 <= Str.int g)%Z.
Proof. intros H. now apply int_acc_nonneg. Qed.

(** The digits that open a text are read whole. *)
Lemma digits_prefix_app (g post : string) :
  Str.all_digits g = true -> Str.digits_prefix post = "" ->
  Str.digits_prefix (g ++ post) = g.
Proof.
  induction g as [|c g IH]; simpl; intros Hd Hp; [exact Hp|].
  apply andb_true_iff in Hd as [Hc Hg].
  rewrite Hc. now rewrite IH.
Qed.

Lemma match_memory_at_marker (g post : string) :
  g <> "" -> Str.all_digits g = true -> Str.digits_prefix post = "" ->
  match_memory (MEMORY_MARKER ++ g ++ post) = Some g.
Proof.
  intros Hne Hd Hp. unfold match_memory.
  change (Str.startswith MEMORY_MARKER (MEMORY_MARKER ++ g ++ post)) with true.
  change (Str.drop (String.length MEMORY_MARKER) (MEMORY_MARKER ++ g ++ post))
    with (g ++ post).
  rewrite digits_prefix_app by assumption.
  now destruct g.
Qed.

(** The search passes over what precedes the first marker. *)
Lemma search_memory_skip (pre rest : string) :
  Str.find MEMORY_MARKER (pre ++ rest) = Some (String.length pre) ->
  search_memory (pre ++ rest) = search_memory rest.
Proof.
  induction pre as [|c pre IH]; intros H; [reflexivity|].
  cbn [append String.length Str.find] in H.
  cbn [append search_memory]. unfold match_memory.
  destruct (Str.startswith MEMORY_MARKER (String c (pre ++ rest)));
    [discriminate|].
  apply IH.
  destruct (Str.find MEMORY_MARKER (pre ++ rest)); simpl in H; congruence.
Qed.

Lemma search_memory_found (pre g post : string) :
  Str.find MEMORY_MARKER (pre ++ MEMORY_MARKER ++ g ++ post)
    = Some (String.length pre) ->
  g <> "" -> Str.all_digits g = true -> Str.digits_prefix post = "" ->
  search_memory (pre ++ MEMORY_MARKER ++ g ++ post) = Some g.
Proof.
  intros Hfind Hne Hd Hp.
  rewrite search_memory_skip by exact Hfind.
  pose proof (match_memory_at_marker g post Hne Hd Hp) as Hm.
  destruct (MEMORY_MARKER ++ g ++ post); cbn [search_memory]; now rewrite Hm.
Qed.

(** Below [2^53] the true division by 1024 is exact. *)
Lemma truediv_1024_exact (k : Z) :
  (0 <= k < 2 ^ 53)%Z -> truediv_1024 k = Returned (Qmake k 1024).
Proof.
  intros [Hlo Hhi]. unfold truediv_1024.
  assert (Hbits : ((if (k =? 0)%Z then 0 else Z.log2 k + 1) <=? 53)%Z = true).
  { apply Z.leb_le. destruct (Z.eqb_spec k 0); [lia|].
    assert (Z.log2 k < 53)%Z by (apply Z.log2_lt_pow2; lia). lia. }
  rewrite Hbits.
  assert (Hbig : (2 ^ 53 < 2 ^ 1034)%Z) by (apply Z.pow_lt_mono_r; lia).
  destruct (Z.leb_spec (2 ^ 1034) k); [lia|reflexivity].
Qed.

Lemma memory_of_digits (output g : string) :
  search_memory output = Some g -> g <> "" ->
  (0 <= Str.int g < 2 ^ 53)%Z ->
  _get_memory_from_measured_output output
  = Returned (Z.max 1 (Str.int g / 1024)).
Proof.
  intros Hs Hne Hk. unfold _get_memory_from_measured_output.
  rewrite Hs. destruct g as [|c g]; [congruence|].
  rewrite truediv_1024_exact by exact Hk.
  unfold int_of_float. cbn [Qnum Qden].
  rewrite Z.quot_div_nonneg by lia.
  f_equal.
  assert (0 <= Str.int (String c g) / 1024)%Z by (apply Z.div_pos; lia).
  destruct (Z.eqb_spec (Str.int (String c g) / 1024) 0); lia.
Qed.

End Memory.

(** C2 (as amended). When the first marker [Maximum resident set size
    (kbytes): ] of a measured output is followed by the digits of [k], and
    [k] is below [2^53], the reported memory is [k / 1024] rounded down and
    raised to 1 when that is 0, also for [k = 0]. *)
Theorem memory_is_whole_megabytes_at_least_one (pre g post : string) :
  Str.find MEMORY_MARKER (pre ++ MEMORY_MARKER ++ g ++ post)
    = Some (String.length pre) ->
  g <> "" -> Str.all_digits g = true -> Str.digits_prefix post = "" ->
  (Str.int g < 2 ^ 53)%Z ->
  _get_memory_from_measured_output (pre ++ MEMORY_MARKER ++ g ++ post)
  = Returned (Z.max 1 (Str.int g / 1024)).
Proof.
  intros Hfind Hne Hd Hp Hk.
  apply memory_of_digits with (g := g); [|exact Hne|].
  - now apply search_memory_found.
  - split; [now apply int_nonneg|exact Hk].
Qed.

Lemma memory_is_whole_megabytes_at_least_one_witness :
  (Str.find MEMORY_MARKER
     (Sample.indent ++ MEMORY_MARKER ++ "2048" ++ Sample.nl)
     = Some (String.length Sample.indent)
   /\ "2048" <> ""
   /\ Str.all_digits "2048" = true
   /\ Str.digits_prefix Sample.nl = ""
   /\ (Str.int "2048" < 2 ^ 53)%Z)
  /\ _get_memory_from_measured_output
       (Sample.indent ++ MEMORY_MARKER ++ "2048" ++ Sample.nl)
     = Returned (Z.max 1 (Str.int "2048" / 1024)).
Proof.
  assert (H1 : Str.find MEMORY_MARKER
                 (Sample.indent ++ MEMORY_MARKER ++ "2048" ++ Sample.nl)
               = Some (String.length Sample.indent)) by reflexivity.
  assert (H2 : "2048" <> "") by discriminate.
  assert (H3 : Str.all_digits "2048" = true) by reflexivity.
  assert (H4 : Str.digits_prefix Sample.nl = "") by reflexivity.
  assert (H5 : (Str.int "2048" < 2 ^ 53)%Z) by reflexivity.
  split; [now repeat split|].
  exact (memory_is_whole_megabytes_at_least_one
           Sample.indent "2048" Sample.nl H1 H2 H3 H4 H5).
Defined.

(** C2 (as stated) fails: a report of 0 kbytes gives 1 megabyte, where the
    description gives 0. *)
Lemma memory_of_zero_kbytes_is_one :
  _get_memory_from_measured_output (MEMORY_MARKER ++ "0") = Returned 1%Z
  /\ memory_mb_described (Str.int "0") = 0%Z
  /\ _get_memory_from_measured_output (MEMORY_MARKER ++ "0")
     <> Returned (memory_mb_described (Str.int "0")).
Proof. repeat split. discriminate. Qed.

(** The values of the description: 2048 kbytes are 2 megabytes, 1 kbyte is
    1 megabyte. *)
Example memory_of_2048_and_1 :
  _get_memory_from_measured_output (MEMORY_MARKER ++ "2048") = Returned 2%Z
  /\ _get_memory_from_measured_output (MEMORY_MARKER ++ "1") = Returned 1%Z.
Proof. split; reflexivity. Qed.

(** Beyond [2^53] the float quotient is rounded before its fraction is
    dropped: [2^63 - 1] kbytes are reported as [2^53] megabytes, one more
    than the quotient rounded down. *)
Example memory_beyond_exact_floats :
  _get_memory_from_measured_output (MEMORY_MARKER ++ "9223372036854775807")
  = Returned (2 ^ 53)%Z
  /\ ((2 ^ 63 - 1) / 1024 = 2 ^ 53 - 1)%Z.
Proof. split; vm_compute; reflexivity. Qed.

(** ** Elapsed seconds *)

Section Elapsed.

Lemma int_of_float_nonneg (x : Q) :
  (0 <= x)%Q -> int_of_float x = Qfloor x /\ (0 <= int_of_float x)%Z.
Proof.
  destruct x as [n d]. unfold Qle, int_of_float, Qfloor. cbn [Qnum Qden].
  intros H. assert (0 <= n)%Z by lia.
  rewrite Z.quot_div_nonneg by lia.
  split; [reflexivity|apply Z.div_pos; lia].
Qed.

Lemma elapsed_seconds_forward (start now : Q) :
  (start <= now)%Q ->
  elapsed_seconds start now = Z.max 1 (Qfloor (now - start)).
Proof.
  intros H. unfold elapsed_seconds.
  assert (Hd : (0 <= now - start)%Q) by (now apply (proj1 (Qle_minus_iff start now))).
  destruct (int_of_float_nonneg _ Hd) as [-> Hpos].
  destruct (Z.eqb_spec (Qfloor (now - start)) 0); lia.
Qed.

(** The seconds a measured run reports are those of [elapsed_seconds]. *)
Lemma run_measured_cmd_elapsed h start now cmd input timeout m e o rc :
  value (run_measured_cmd h start now cmd input timeout)
    = Returned (m, e, o, rc) ->
  e = elapsed_seconds start now.
Proof.
  unfold value, run, run_measured_cmd, bind.
  destruct (_run_cmd h cmd input timeout true true []) as [log [[[[m' o'] rc'] f]|x]];
    cbn; intros H; [|discriminate].
  now inversion H.
Qed.

End Elapsed.




(** C7 (as amended). With readings [start <= now] of the clock, a
    measured run that returns reports at least 1 second, also when less
    than a second went by. *)
Theorem elapsed_at_least_one
    h start now cmd input timeout memory elapsed output rc :
  value (run_measured_cmd h start now cmd input timeout)
    = Returned (memory, elapsed, output, rc) ->
  (start <= now)%Q ->
  (1 <= elapsed)%Z.
Proof.
  intros Hrun Hclock.
  rewrite (run_measured_cmd_elapsed _ _ _ _ _ _ _ _ _ _ Hrun).
  rewrite elapsed_seconds_forward by exact Hclock. lia.
Qed.

Lemma elapsed_at_least_one_witness :
  (value (run_measured_cmd
            (Sample.linux (Some "/usr/bin/time")
               (Sample.writes Sample.measured_hello ""))
            10 (41 # 4) ["ls"] "" None)
     = Returned (4%Z, 1%Z, Some "hello", 0%Z)
   /\ (10 <= 41 # 4)%Q)
  /\ (1 <= 1)%Z.
Proof.
  assert (H1 : value (run_measured_cmd
                        (Sample.linux (Some "/usr/bin/time")
                           (Sample.writes Sample.measured_hello ""))
                        10 (41 # 4) ["ls"] "" None)
               = Returned (4%Z, 1%Z, Some "hello", 0%Z)) by reflexivity.
  assert (H2 : (10 <= 41 # 4)%Q) by (unfold Qle; simpl; lia).
  split; [now split|].
  exact (elapsed_at_least_one _ _ _ _ _ _ _ _ _ _ H1 H2).
Defined.

(** C7 (as stated) fails: when the clock is set back during the run, from
    10 to 8.5, the run reports -1 second; only a difference of 0 is
    replaced by 1. *)
Lemma elapsed_is_negative_when_clock_is_set_back :
  value (run_measured_cmd
           (Sample.linux (Some "/usr/bin/time")
              (Sample.writes Sample.measured_hello ""))
           10 (17 # 2) ["ls"] "" None)
    = Returned (4%Z, (-1)%Z, Some "hello", 0%Z)
  /\ ~ (1 <= -1)%Z.
Proof. split; [reflexivity|lia]. Qed.

(** ** Runs *)

Section Runs.

Variable h : host.

Lemma start_launches cmd b r log :
  spawn h (launched h cmd) = Some r ->
  start h cmd b log
  = ((log ++ [Launch (launched h cmd) b])%list,
     Returned {| args := launched h cmd; stdout_piped := b;
                 windows := Utils.is_windows h; reaction := r |}).
Proof.
  unfold start, launched, _WindowsProcess, _LinuxProcess, Popen_init.
  destruct (Utils.is_windows h); intros ->; reflexivity.
Qed.

Lemma start_fails cmd b log :
  spawn h (launched h cmd) = None ->
  start h cmd b log = (log, Raised OSError).
Proof.
  unfold start, launched, _WindowsProcess, _LinuxProcess, Popen_init.
  destruct (Utils.is_windows h); intros ->; reflexivity.
Qed.

Lemma tracks_memory_off log :
  tracks_memory h false log = (log, Returned false).
Proof. reflexivity. Qed.

Lemma tracks_memory_tool t rest log :
  LOG_TIME h = t :: rest ->
  tracks_memory h true log = (log, Returned (Utils.tool_exists h t)).
Proof.
  unfold tracks_memory, LOG_TIME_0, bind. now intros ->.
Qed.

Lemma expires_before_end (t : Q) (b : behaviour) :
  (t < duration b)%Q -> expires (Some t) b = true.
Proof.
  intros H. unfold expires. apply negb_true_iff.
  destruct (Qle_bool (duration b) t) eqn:E; [|reflexivity].
  apply Qle_bool_iff in E. exfalso. exact (Qlt_not_le _ _ H E).
Qed.

Lemma tidy_text (s : string) :
  tidy (Some s) = Some (_strip_shell_colors (Str.rstrip s)).
Proof. now destruct s. Qed.

(** A run whose timeout expires. *)
Lemma _run_cmd_expired cmd input t b tm tracked r :
  tracks_memory h tm [] = ([], Returned tracked) ->
  spawn h (launched h (wrapped h tracked cmd)) = Some r ->
  expires (Some t) (r input) = true ->
  run (_run_cmd h cmd input (Some t) b tm)
  = ([Launch (launched h (wrapped h tracked cmd)) b;
      Handle SIGINT; Handle SIGTERM;
      Communicate input (Some t); kill_event h; Drain],
     Returned (0%Z, tidy (captured b (drained (r input) t)),
               TIMEOUT_RC, true)).
Proof.
  intros Htm Hspawn Hexp.
  unfold run, _run_cmd, bind. rewrite Htm.
  fold (wrapped h tracked cmd). rewrite (start_launches _ _ _ _ Hspawn).
  unfold try_except, communicate, communicate_killed, kill, bind, emit, raise, ret.
  cbn [app reaction stdout_piped]. rewrite Hexp. cbn [exn_eqb app windows].
  unfold kill_event. now destruct (Utils.is_windows h).
Qed.

(** A run that ends in time, memory not being tracked. *)
Lemma _run_cmd_finished cmd input timeout b tm r :
  tracks_memory h tm [] = ([], Returned false) ->
  spawn h (launched h cmd) = Some r ->
  expires timeout (r input) = false ->
  run (_run_cmd h cmd input timeout b tm)
  = ([Launch (launched h cmd) b; Handle SIGINT; Handle SIGTERM;
      Communicate input timeout],
     Returned (0%Z, tidy (captured b (written (r input))),
               returncode (r input), false)).
Proof.
  intros Htm Hspawn Hexp.
  unfold run, _run_cmd, bind. rewrite Htm.
  rewrite (start_launches _ _ _ _ Hspawn).
  unfold try_except, communicate, bind, emit, raise, ret.
  cbn [app reaction stdout_piped]. rewrite Hexp.
  unfold tidy. now destruct (truthy _).
Qed.

(** A run that does not track memory reports none. *)
Lemma _run_cmd_untracked_memory cmd input timeout b log log' memory output rc f :
  _run_cmd h cmd input timeout b false log
    = (log', Returned (memory, output, rc, f)) ->
  memory = 0%Z.
Proof.
  unfold _run_cmd, bind. rewrite tracks_memory_off.
  destruct (start h cmd b log) as [log0 [p|e0]]; [|discriminate].
  unfold try_except, communicate, communicate_killed, kill, bind, emit, raise, ret.
  destruct (expires timeout (reaction p input)); cbn [exn_eqb].
  - destruct (windows p); intros E; now inversion E.
  - destruct (truthy _); intros E; now inversion E.
Qed.

(** A run that cannot start its command. *)
Lemma _run_cmd_not_started cmd input timeout b tm tracked :
  tracks_memory h tm [] = ([], Returned tracked) ->
  spawn h (launched h (wrapped h tracked cmd)) = None ->
  run (_run_cmd h cmd input timeout b tm) = ([], Raised OSError).
Proof.
  intros Htm Hspawn.
  unfold run, _run_cmd, bind. rewrite Htm.
  fold (wrapped h tracked cmd). now rewrite (start_fails _ _ _ Hspawn).
Qed.

End Runs.

(** When the timeout of a run expires before its command ends, the
    command is asked to end and what it has written when it has ended is
    collected; [run_cmd] returns that output, the return code 137
    whatever the exit status of the process, and [timeouted = True].  The
    output has gone through [rstrip] and the color stripping, as the
    output of a run that ends in time has. *)
Theorem timeout_is_reported h cmd input t b r :
  spawn h (launched h cmd) = Some r ->
  (t < duration (r input))%Q ->
  run (run_cmd h cmd input (Some t) b)
  = ([Launch (launched h cmd) b; Handle SIGINT; Handle SIGTERM;
      Communicate input (Some t); kill_event h; Drain],
     Returned (tidy (captured b (drained (r input) t)), 137%Z, true))
  /\ (forall timeout,
        expires timeout (r input) = false ->
        value (run_cmd h cmd input timeout b)
        = Returned (tidy (captured b (written (r input))),
                    returncode (r input), false)).
Proof.
  intros Hspawn Hlate. split.
  - pose proof (_run_cmd_expired h cmd input t b false false r
                  (tracks_memory_off h []) Hspawn
                  (expires_before_end _ _ Hlate)) as H.
    unfold run, run_cmd, bind in *. now rewrite H.
  - intros timeout Hin.
    pose proof (_run_cmd_finished h cmd input timeout b false r
                  (tracks_memory_off h []) Hspawn Hin) as H.
    unfold value, run, run_cmd, bind in *. now rewrite H.
Qed.

Lemma timeout_is_reported_witness :
  (spawn Sample.slow_host (launched Sample.slow_host ["sleep"; "2"])
     = Some (fun _ => Sample.slow)
   /\ (1 < duration Sample.slow)%Q
   /\ expires (Some 5%Q) Sample.slow = false)
  /\ run (run_cmd Sample.slow_host ["sleep"; "2"] "" (Some 1%Q) true)
     = ([Launch ["sleep"; "2"] true; Handle SIGINT; Handle SIGTERM;
         Communicate "" (Some 1%Q); Killpg SIGTERM; Drain],
        Returned (Some "part", 137%Z, true))
  /\ value (run_cmd Sample.slow_host ["sleep"; "2"] "" (Some 5%Q) true)
     = Returned (Some "done", 0%Z, false).
Proof.
  assert (H1 : spawn Sample.slow_host (launched Sample.slow_host ["sleep"; "2"])
               = Some (fun _ => Sample.slow)) by reflexivity.
  assert (H2 : (1 < duration Sample.slow)%Q) by reflexivity.
  assert (H3 : expires (Some 5%Q) Sample.slow = false) by reflexivity.
  split; [now repeat split|].
  destruct (timeout_is_reported Sample.slow_host ["sleep"; "2"] "" 1%Q true
              (fun _ => Sample.slow) H1 H2) as [Hlate Hin].
  split; [exact Hlate|exact (Hin (Some 5%Q) H3)].
Defined.

(** C1 (the code departs from it). On Linux a command that ignores the
    signal of [kill] goes on after the timeout has expired: the run
    returns when the command has ended by itself, after three seconds for
    a timeout of one, and its output holds what the command wrote after
    the timeout ([done]), where the output up to the timeout is [part]. *)
Lemma timeout_output_runs_past_the_timeout :
  run (run_cmd Cases.trapping_host Cases.trap_command "" (Some 1%Q) true)
  = ([Launch Cases.trap_command true; Handle SIGINT; Handle SIGTERM;
      Communicate "" (Some 1%Q); Killpg SIGTERM; Drain],
     Returned (Some ("part" ++ Re.LF ++ "done"), 137%Z, true))
  /\ tidy (Some (written_by Cases.trapping 1)) = Some "part"
  /\ Some ("part" ++ Re.LF ++ "done") <> Some "part".
Proof. repeat split. discriminate. Qed.

(** ** Trimming *)

Section Trimming.

Lemma rstrip_last (s : string) :
  forall c, Str.last (Str.rstrip s) = Some c -> Char.isspace c = false.
Proof.
  induction s as [|a s IH]; intros c; [discriminate|].
  cbn [Str.rstrip]. destruct (Str.rstrip s) as [|b r] eqn:E.
  - destruct (Char.isspace a) eqn:Ha; [discriminate|].
    cbn. intros H. now inversion H; subst.
  - intros H. apply IH. exact H.
Qed.

Lemma rstrip_no_trailing_space (s : string) :
  Str.ends_with_space (Str.rstrip s) = false.
Proof.
  unfold Str.ends_with_space.
  destruct (Str.last (Str.rstrip s)) as [c|] eqn:E; [|reflexivity].
  now apply rstrip_last with (s := s).
Qed.

End Trimming.

(** C4 (as amended). A run with buffered output that ends in time returns
    the captured text with its trailing whitespace trimmed first and its
    color sequences stripped after that, once; the returned text holds no
    color sequence, and it does not end in whitespace when the trimmed
    text held no color sequence. *)
Theorem finished_output_is_trimmed_then_stripped h cmd input timeout r :
  spawn h (launched h cmd) = Some r ->
  expires timeout (r input) = false ->
  value (run_cmd h cmd input timeout true)
  = Returned (Some (_strip_shell_colors (Str.rstrip (written (r input)))),
              returncode (r input), false)
  /\ has_shell_color (_strip_shell_colors (Str.rstrip (written (r input))))
     = false
  /\ (has_shell_color (Str.rstrip (written (r input))) = false ->
      Str.ends_with_space
        (_strip_shell_colors (Str.rstrip (written (r input)))) = false).
Proof.
  intros Hspawn Hin. split; [|split; [apply strip_no_color|]].
  - pose proof (_run_cmd_finished h cmd input timeout true false r
                  (tracks_memory_off h []) Hspawn Hin) as H.
    unfold value, run, run_cmd, bind in *. rewrite H.
    cbn [captured snd]. now rewrite tidy_text.
  - intros Hplain. rewrite (no_color_strip _ Hplain).
    apply rstrip_no_trailing_space.
Qed.

Lemma finished_output_is_trimmed_then_stripped_witness :
  (spawn (Sample.linux None (Sample.writes ("hello " ++ Sample.nl) ""))
         (launched (Sample.linux None (Sample.writes ("hello " ++ Sample.nl) ""))
                   ["ls"])
     = Some (fun _ => Sample.writes ("hello " ++ Sample.nl) "")
   /\ expires None (Sample.writes ("hello " ++ Sample.nl) "") = false
   /\ has_shell_color (Str.rstrip ("hello " ++ Sample.nl)) = false)
  /\ value (run_cmd (Sample.linux None (Sample.writes ("hello " ++ Sample.nl) ""))
              ["ls"] "" None true)
     = Returned (Some (_strip_shell_colors (Str.rstrip ("hello " ++ Sample.nl))),
                 0%Z, false)
  /\ has_shell_color (_strip_shell_colors (Str.rstrip ("hello " ++ Sample.nl)))
     = false
  /\ Str.ends_with_space
       (_strip_shell_colors (Str.rstrip ("hello " ++ Sample.nl))) = false.
Proof.
  assert (H1 : spawn (Sample.linux None (Sample.writes ("hello " ++ Sample.nl) ""))
                 (launched (Sample.linux None
                              (Sample.writes ("hello " ++ Sample.nl) ""))
                           ["ls"])
               = Some (fun _ => Sample.writes ("hello " ++ Sample.nl) ""))
    by reflexivity.
  assert (H2 : expires None (Sample.writes ("hello " ++ Sample.nl) "") = false)
    by reflexivity.
  assert (H3 : has_shell_color (Str.rstrip ("hello " ++ Sample.nl)) = false)
    by reflexivity.
  split; [now repeat split|].
  destruct (finished_output_is_trimmed_then_stripped _ _ "" _ _ H1 H2)
    as [Hout [Hcolor Hspace]].
  split; [exact Hout|]. split; [exact Hcolor|exact (Hspace H3)].
Defined.

(** C4 (as stated) fails: a text that ends in a color reset after a space
    is returned with the space at its end; trimming after the stripping
    would have removed it. *)
Lemma finished_output_keeps_space_before_color :
  value (run_cmd (Sample.linux None (Sample.writes Sample.colored ""))
           ["ls"] "" None true)
    = Returned (Some "abc ", 0%Z, false)
  /\ Str.ends_with_space "abc " = true
  /\ Str.rstrip (_strip_shell_colors Sample.colored) = "abc".
Proof. repeat split. Qed.

(** C8 (as amended). Without buffering a run returns [None] as output,
    whatever the command wrote and whether or not the timeout expired;
    with buffering, a command that ends in time and wrote nothing gives
    the empty text. *)
Theorem unbuffered_output_is_none h cmd input timeout r :
  spawn h (launched h cmd) = Some r ->
  (exists rc timeouted,
     value (run_cmd h cmd input timeout false)
     = Returned (None, rc, timeouted))
  /\ (expires timeout (r input) = false ->
      written (r input) = "" ->
      value (run_cmd h cmd input timeout true)
      = Returned (Some "", returncode (r input), false)).
Proof.
  intros Hspawn. split.
  - destruct (expires timeout (r input)) eqn:Hexp.
    + destruct timeout as [t|]; [|discriminate].
      pose proof (_run_cmd_expired h cmd input t false false false r
                    (tracks_memory_off h []) Hspawn Hexp) as H.
      exists TIMEOUT_RC, true.
      unfold value, run, run_cmd, bind in *. now rewrite H.
    + pose proof (_run_cmd_finished h cmd input timeout false false r
                    (tracks_memory_off h []) Hspawn Hexp) as H.
      exists (returncode (r input)), false.
      unfold value, run, run_cmd, bind in *. now rewrite H.
  - intros Hexp Hnothing.
    pose proof (_run_cmd_finished h cmd input timeout true false r
                  (tracks_memory_off h []) Hspawn Hexp) as H.
    unfold value, run, run_cmd, bind in *. rewrite H, Hnothing. reflexivity.
Qed.

Lemma unbuffered_output_is_none_witness :
  (spawn Sample.silent_host (launched Sample.silent_host ["true"])
     = Some (fun _ => Sample.writes "" "")
   /\ expires None (Sample.writes "" "") = false
   /\ written (Sample.writes "" "") = "")
  /\ (exists rc timeouted,
        value (run_cmd Sample.silent_host ["true"] "" None false)
        = Returned (None, rc, timeouted))
  /\ value (run_cmd Sample.silent_host ["true"] "" None true)
     = Returned (Some "", 0%Z, false).
Proof.
  assert (H1 : spawn Sample.silent_host (launched Sample.silent_host ["true"])
               = Some (fun _ => Sample.writes "" "")) by reflexivity.
  assert (H2 : expires None (Sample.writes "" "") = false) by reflexivity.
  assert (H3 : written (Sample.writes "" "") = "") by reflexivity.
  split; [now repeat split|].
  destruct (unbuffered_output_is_none Sample.silent_host ["true"] "" None
              (fun _ => Sample.writes "" "") H1) as [Hnone Hempty].
  split; [exact Hnone|exact (Hempty H2 H3)].
Defined.

(** C8 (as stated) fails: with buffering, a command that writes nothing
    gives the empty text, not [None]. *)
Lemma silent_command_gives_empty_text :
  value (run_cmd (Sample.linux None (Sample.writes "" "")) ["true"] "" None true)
    = Returned (Some "", 0%Z, false)
  /\ Some "" <> (None : option string).
Proof. split; [reflexivity|discriminate]. Qed.

(** ** Measured runs *)

Section Measured.

Variable h : host.

(** Where the tool is missing, a tracked run is the untracked one. *)
Lemma _run_cmd_tool_missing tool rest cmd input timeout b log :
  LOG_TIME h = tool :: rest -> which h tool = None ->
  _run_cmd h cmd input timeout b true log
  = _run_cmd h cmd input timeout b false log.
Proof.
  intros Hcfg Hwhich. unfold _run_cmd, bind.
  rewrite (tracks_memory_tool h tool rest log Hcfg), tracks_memory_off.
  unfold Utils.tool_exists. now rewrite Hwhich.
Qed.

Lemma tracks_memory_tool_found tool rest path :
  LOG_TIME h = tool :: rest -> which h tool = Some path ->
  tracks_memory h true [] = ([], Returned true).
Proof.
  intros Hcfg Hwhich. rewrite (tracks_memory_tool h tool rest [] Hcfg).
  unfold Utils.tool_exists. now rewrite Hwhich.
Qed.

End Measured.

(** C9. On a host without the measurement utility a measured run is the
    plain buffered run of the same command: the same events (the command
    is launched as it was given, without the utility in front), the same
    output and return code, memory 0, and an exception only where the
    plain run raises one.  When the command ends in time the output is the
    captured text after [rstrip] and color stripping, the report markers
    left alone. *)
Theorem unmeasured_when_tool_missing h tool rest t_start t_end cmd input timeout :
  LOG_TIME h = tool :: rest ->
  which h tool = None ->
  run (run_measured_cmd h t_start t_end cmd input timeout)
  = match run (run_cmd h cmd input timeout true) with
    | (log, Returned (output, rc, _)) =>
        (log, Returned (0%Z, elapsed_seconds t_start t_end, output, rc))
    | (log, Raised e) => (log, Raised e)
    end
  /\ (forall r,
        spawn h (launched h cmd) = Some r ->
        expires timeout (r input) = false ->
        run (run_measured_cmd h t_start t_end cmd input timeout)
        = ([Launch (launched h cmd) true; Handle SIGINT; Handle SIGTERM;
            Communicate input timeout],
           Returned (0%Z, elapsed_seconds t_start t_end,
                     Some (_strip_shell_colors (Str.rstrip (written (r input)))),
                     returncode (r input)))).
Proof.
  intros Hcfg Hwhich.
  assert (Hsame : run (run_measured_cmd h t_start t_end cmd input timeout)
                  = match run (run_cmd h cmd input timeout true) with
                    | (log, Returned (output, rc, _)) =>
                        (log, Returned (0%Z, elapsed_seconds t_start t_end, output, rc))
                    | (log, Raised e) => (log, Raised e)
                    end).
  { unfold run, run_measured_cmd, run_cmd, bind.
    rewrite (_run_cmd_tool_missing h tool rest cmd input timeout true []
               Hcfg Hwhich).
    destruct (_run_cmd h cmd input timeout true false [])
      as [log [[[[memory output] rc] timeouted]|e]] eqn:E; [|reflexivity].
    cbn. f_equal. f_equal.
    now rewrite (_run_cmd_untracked_memory h _ _ _ _ _ _ _ _ _ _ E). }
  split; [exact Hsame|].
  intros r Hspawn Hin. rewrite Hsame.
  pose proof (_run_cmd_finished h cmd input timeout true false r
                (tracks_memory_off h []) Hspawn Hin) as H.
  unfold run, run_cmd, bind in *. rewrite H.
  cbn [captured]. now rewrite tidy_text.
Qed.

Lemma unmeasured_when_tool_missing_witness :
  (LOG_TIME Sample.bare_host = "/usr/bin/time" :: ["-v"]
   /\ which Sample.bare_host "/usr/bin/time" = None
   /\ spawn Sample.bare_host (launched Sample.bare_host ["ls"])
      = Some (fun _ => Sample.writes Sample.measured_hello "")
   /\ expires None (Sample.writes Sample.measured_hello "") = false)
  /\ run (run_measured_cmd Sample.bare_host 10 (47 # 4) ["ls"] "" None)
     = match run (run_cmd Sample.bare_host ["ls"] "" None true) with
       | (log, Returned (output, rc, _)) =>
           (log, Returned (0%Z, elapsed_seconds 10 (47 # 4), output, rc))
       | (log, Raised e) => (log, Raised e)
       end
  /\ run (run_measured_cmd Sample.bare_host 10 (47 # 4) ["ls"] "" None)
     = ([Launch ["ls"] true; Handle SIGINT; Handle SIGTERM; Communicate "" None],
        Returned (0%Z, 1%Z, Some (Str.rstrip Sample.measured_hello), 0%Z)).
Proof.
  assert (H1 : LOG_TIME Sample.bare_host = "/usr/bin/time" :: ["-v"])
    by reflexivity.
  assert (H2 : which Sample.bare_host "/usr/bin/time" = None) by reflexivity.
  assert (H3 : spawn Sample.bare_host (launched Sample.bare_host ["ls"])
               = Some (fun _ => Sample.writes Sample.measured_hello ""))
    by reflexivity.
  assert (H4 : expires None (Sample.writes Sample.measured_hello "") = false)
    by reflexivity.
  split; [now repeat split|].
  destruct (unmeasured_when_tool_missing Sample.bare_host _ _ 10 (47 # 4)
              ["ls"] "" None H1 H2) as [Hsame Hexplicit].
  split; [exact Hsame|exact (Hexplicit _ H3 H4)].
Defined.

(** Without the utility the report markers of a text stay in the output. *)
Example unmeasured_output_keeps_markers :
  value (run_measured_cmd
           (Sample.linux None (Sample.writes Sample.measured_hello ""))
           10 (47 # 4) ["ls"] "" None)
  = Returned (0%Z, 1%Z, Some (Str.rstrip Sample.measured_hello), 0%Z).
Proof. reflexivity. Qed.

(** A measured run whose timeout expires, on a host with the measurement
    utility. *)
Lemma measured_timeout_run h tool rest path t_start t_end cmd input t r :
  LOG_TIME h = tool :: rest ->
  which h tool = Some path ->
  spawn h (launched h (LOG_TIME h ++ cmd)%list) = Some r ->
  (t < duration (r input))%Q ->
  run (_run_cmd h cmd input (Some t) true true)
  = ([Launch (launched h (LOG_TIME h ++ cmd)%list) true;
      Handle SIGINT; Handle SIGTERM;
      Communicate input (Some t); kill_event h; Drain],
     Returned (0%Z,
               Some (_strip_shell_colors (Str.rstrip (drained (r input) t))),
               137%Z, true))
  /\ run (run_measured_cmd h t_start t_end cmd input (Some t))
     = ([Launch (launched h (LOG_TIME h ++ cmd)%list) true;
         Handle SIGINT; Handle SIGTERM;
         Communicate input (Some t); kill_event h; Drain],
        Returned (0%Z, elapsed_seconds t_start t_end,
                  Some (_strip_shell_colors (Str.rstrip (drained (r input) t))),
                  137%Z)).
Proof.
  intros Hcfg Hwhich Hspawn Hlate.
  pose proof (_run_cmd_expired h cmd input t true true true r
                (tracks_memory_tool_found h tool rest path Hcfg Hwhich)
                Hspawn (expires_before_end _ _ Hlate)) as H.
  cbn [captured] in H. rewrite tidy_text in H.
  split; [exact H|].
  unfold run, run_measured_cmd, bind in *. now rewrite H.
Qed.

(** C10 (as amended). On a host with the measurement utility, the result
    of a measured run whose timeout expires reports memory 0 and the
    return code 137, and its output is what was collected from the
    process after [rstrip] and color stripping only: a report in that
    text is neither read nor cut off.  The result of [_run_cmd] has the
    flag [timeouted] set; the result of [run_measured_cmd] is that result
    without the flag. *)
Theorem measured_timeout_keeps_report
    h tool rest path t_start t_end cmd input t r memory elapsed output rc :
  LOG_TIME h = tool :: rest ->
  which h tool = Some path ->
  spawn h (launched h (LOG_TIME h ++ cmd)%list) = Some r ->
  (t < duration (r input))%Q ->
  value (run_measured_cmd h t_start t_end cmd input (Some t))
    = Returned (memory, elapsed, output, rc) ->
  memory = 0%Z
  /\ rc = 137%Z
  /\ output = Some (_strip_shell_colors (Str.rstrip (drained (r input) t)))
  /\ value (_run_cmd h cmd input (Some t) true true)
     = Returned (memory, output, rc, true).
Proof.
  intros Hcfg Hwhich Hspawn Hlate.
  destruct (measured_timeout_run h tool rest path t_start t_end cmd input t r
              Hcfg Hwhich Hspawn Hlate) as [Hinner Houter].
  unfold value. rewrite Houter, Hinner. cbn [snd].
  intros H. inversion H; subst. now repeat split.
Qed.

Lemma measured_timeout_keeps_report_witness :
  (LOG_TIME (Sample.linux (Some "/usr/bin/time")
               (Sample.writes "done" ("part " ++ Sample.nl)))
     = "/usr/bin/time" :: ["-v"]
   /\ which (Sample.linux (Some "/usr/bin/time")
               (Sample.writes "done" ("part " ++ Sample.nl)))
        "/usr/bin/time" = Some "/usr/bin/time"
   /\ spawn (Sample.linux (Some "/usr/bin/time")
               (Sample.writes "done" ("part " ++ Sample.nl)))
        ["/usr/bin/time"; "-v"; "ls"]
      = Some (fun _ => Sample.writes "done" ("part " ++ Sample.nl))
   /\ (1 < duration (Sample.writes "done" ("part " ++ Sample.nl)))%Q
   /\ value (run_measured_cmd
               (Sample.linux (Some "/usr/bin/time")
                  (Sample.writes "done" ("part " ++ Sample.nl)))
               10 (47 # 4) ["ls"] "" (Some 1%Q))
      = Returned (0%Z, 1%Z, Some "part", 137%Z))
  /\ 0%Z = 0%Z
  /\ 137%Z = 137%Z
  /\ Some "part"
     = Some (_strip_shell_colors
               (Str.rstrip (drained (Sample.writes "done" ("part " ++ Sample.nl)) 1)))
  /\ value (_run_cmd
              (Sample.linux (Some "/usr/bin/time")
                 (Sample.writes "done" ("part " ++ Sample.nl)))
              ["ls"] "" (Some 1%Q) true true)
     = Returned (0%Z, Some "part", 137%Z, true).
Proof.
  assert (H1 : LOG_TIME (Sample.linux (Some "/usr/bin/time")
                           (Sample.writes "done" ("part " ++ Sample.nl)))
               = "/usr/bin/time" :: ["-v"]) by reflexivity.
  assert (H2 : which (Sample.linux (Some "/usr/bin/time")
                        (Sample.writes "done" ("part " ++ Sample.nl)))
                 "/usr/bin/time" = Some "/usr/bin/time") by reflexivity.
  assert (H3 : spawn (Sample.linux (Some "/usr/bin/time")
                        (Sample.writes "done" ("part " ++ Sample.nl)))
                 ["/usr/bin/time"; "-v"; "ls"]
               = Some (fun _ => Sample.writes "done" ("part " ++ Sample.nl)))
    by reflexivity.
  assert (H4 : (1 < duration (Sample.writes "done" ("part " ++ Sample.nl)))%Q)
    by reflexivity.
  assert (H5 : value (run_measured_cmd
                        (Sample.linux (Some "/usr/bin/time")
                           (Sample.writes "done" ("part " ++ Sample.nl)))
                        10 (47 # 4) ["ls"] "" (Some 1%Q))
               = Returned (0%Z, 1%Z, Some "part", 137%Z)) by reflexivity.
  split; [now repeat split|].
  exact (measured_timeout_keeps_report _ _ _ _ 10 (47 # 4) ["ls"] "" _
           (fun _ => Sample.writes "done" ("part " ++ Sample.nl))
           _ _ _ _ H1 H2 H3 H4 H5).
Defined.

(** C10 (as stated) fails: the measurement utility is killed with the
    command it wraps and writes no report; the output of the run is what
    the command wrote, and holds none of the markers of a report. *)
Lemma measured_timeout_output_without_report :
  run (run_measured_cmd
         (Sample.linux (Some "/usr/bin/time")
            (Sample.writes "done" ("part " ++ Sample.nl)))
         10 (47 # 4) ["ls"] "" (Some 1%Q))
  = ([Launch ["/usr/bin/time"; "-v"; "ls"] true;
      Handle SIGINT; Handle SIGTERM;
      Communicate "" (Some 1%Q); Killpg SIGTERM; Drain],
     Returned (0%Z, 1%Z, Some "part", 137%Z))
  /\ Str.find MEMORY_MARKER "part" = None
  /\ Str.find BEING_TIMED "part" = None
  /\ Str.find NON_ZERO_STATUS "part" = None.
Proof. repeat split. Qed.

(** A report that the collected text holds stays in the output, and a
    command that ends in time with exit status 137 gives a result of the
    same shape as a run whose timeout expired. *)
Example measured_timeout_report_and_code :
  Str.find MEMORY_MARKER (Str.rstrip Sample.measured_hello) = Some 39%nat
  /\ value (run_measured_cmd
              (Sample.linux (Some "/usr/bin/time")
                 {| duration := 2; written := Sample.measured_hello;
                    written_by := fun _ => ""; drained := fun _ => "";
                    returncode := 137;
                    returncode_killed := (-15) |})
              10 (47 # 4) ["ls"] "" None)
     = Returned (4%Z, 1%Z, Some "hello", 137%Z).
Proof. split; reflexivity. Qed.

(** On Windows a script is started through the interpreter and killed by
    [taskkill]. *)
Example windows_script_run :
  run (run_cmd (Sample.windows_host Sample.slow) ["tool.py"; "-x"] ""
         (Some 1%Q) false)
  = ([Launch ["python.exe"; "tool.py"; "-x"] false;
      Handle SIGINT; Handle SIGTERM;
      Communicate "" (Some 1%Q); Taskkill; Drain],
     Returned (None, 137%Z, true)).
Proof. reflexivity. Qed.

(** * Further properties *)

(** ** Prefixes, trimming and cutting *)

Section Prefixes.

Lemma startswith_refl (s : string) : Str.startswith s s = true.
Proof.
  induction s as [|c s IH]; [reflexivity|].
  cbn [Str.startswith]. now rewrite Ascii.eqb_refl.
Qed.

Lemma startswith_trans (p : string) :
  forall q s, Str.startswith p q = true -> Str.startswith q s = true ->
              Str.startswith p s = true.
Proof.
  induction p as [|a p IH]; intros q s Hpq Hqs; [reflexivity|].
  destruct q as [|b q]; [discriminate|].
  destruct s as [|c s]; [discriminate|].
  cbn [Str.startswith] in *.
  apply andb_true_iff in Hpq as [Hab Hp].
  apply andb_true_iff in Hqs as [Hbc Hq].
  apply Ascii.eqb_eq in Hab, Hbc. subst.
  rewrite Ascii.eqb_refl. now apply (IH q).
Qed.

Lemma rstrip_prefix (s : string) : Str.startswith (Str.rstrip s) s = true.
Proof.
  induction s as [|c s IH]; [reflexivity|].
  cbn [Str.rstrip]. destruct (Str.rstrip s) as [|a r] eqn:E.
  - destruct (Char.isspace c); [reflexivity|].
    cbn [Str.startswith]. now rewrite Ascii.eqb_refl.
  - cbn [Str.startswith]. rewrite Ascii.eqb_refl. exact IH.
Qed.

Lemma rstrip_fixed (s : string) :
  Str.ends_with_space s = false -> Str.rstrip s = s.
Proof.
  unfold Str.ends_with_space.
  induction s as [|c s IH]; [reflexivity|].
  cbn [Str.rstrip Str.last]. destruct s as [|a r].
  - cbn. now intros ->.
  - intros H. rewrite (IH H). reflexivity.
Qed.

Lemma split_head_prefix (sep s : string) :
  Str.startswith (Str.split_head sep s) s = true.
Proof.
  induction s as [|c s IH]; cbn [Str.split_head].
  - now destruct (Str.startswith sep "").
  - destruct (Str.startswith sep (String c s)); [reflexivity|].
    cbn [Str.startswith]. now rewrite Ascii.eqb_refl.
Qed.

(** A separator absent from a text is absent from its prefixes. *)
Lemma find_none_prefix (sep : string) :
  forall p s, Str.startswith p s = true -> Str.find sep s = None ->
              Str.find sep p = None.
Proof.
  induction p as [|a p IH]; intros s Hp Hs.
  - destruct sep as [|x sep]; [|reflexivity].
    destruct s; discriminate.
  - destruct s as [|c s]; [discriminate|].
    cbn [Str.startswith] in Hp. apply andb_true_iff in Hp as [Hac Hp].
    apply Ascii.eqb_eq in Hac. subst c.
    cbn [Str.find] in Hs |- *.
    destruct (Str.startswith sep (String a s)) eqn:Es; [discriminate|].
    destruct (Str.startswith sep (String a p)) eqn:Ep.
    + assert (Str.startswith sep (String a s) = true).
      { apply (startswith_trans sep (String a p)); [exact Ep|].
        cbn [Str.startswith]. now rewrite Ascii.eqb_refl. }
      congruence.
    + destruct (Str.find sep s) eqn:Ef; [discriminate|].
      now rewrite (IH s Hp Ef).
Qed.

(** What precedes the first separator holds no separator. *)
Lemma find_split_head (a : ascii) (sep' s : string) :
  Str.find (String a sep') (Str.split_head (String a sep') s) = None.
Proof.
  induction s as [|c s IH]; [reflexivity|].
  cbn [Str.split_head].
  destruct (Str.startswith (String a sep') (String c s)) eqn:E; [reflexivity|].
  cbn [Str.find]. rewrite IH.
  destruct (Str.startswith (String a sep') (String c (Str.split_head (String a sep') s)))
    eqn:E'; [|reflexivity].
  assert (Hsame : String c (Str.split_head (String a sep') s)
                  = Str.split_head (String a sep') (String c s)).
  { cbn [Str.split_head]. now rewrite E. }
  rewrite Hsame in E'. apply startswith_split_head in E'. congruence.
Qed.

Lemma clean_output_unfold (output : string) :
  _get_clean_output_from_measured_output output
  = Str.rstrip (Str.split_head NON_ZERO_STATUS
                  (Str.split_head BEING_TIMED output)).
Proof. reflexivity. Qed.

Lemma clean_output_no_being_timed (output : string) :
  Str.find BEING_TIMED (_get_clean_output_from_measured_output output) = None.
Proof.
  rewrite clean_output_unfold.
  apply find_none_prefix with (s := Str.split_head NON_ZERO_STATUS
                                      (Str.split_head BEING_TIMED output));
    [apply rstrip_prefix|].
  apply find_none_prefix with (s := Str.split_head BEING_TIMED output);
    [apply split_head_prefix|].
  apply find_split_head.
Qed.

Lemma clean_output_no_non_zero_status (output : string) :
  Str.find NON_ZERO_STATUS (_get_clean_output_from_measured_output output) = None.
Proof.
  rewrite clean_output_unfold.
  apply find_none_prefix with (s := Str.split_head NON_ZERO_STATUS
                                      (Str.split_head BEING_TIMED output));
    [apply rstrip_prefix|].
  apply find_split_head.
Qed.

Lemma clean_output_prefix (output : string) :
  Str.startswith (_get_clean_output_from_measured_output output) output = true.
Proof.
  rewrite clean_output_unfold.
  eapply startswith_trans; [apply rstrip_prefix|].
  eapply startswith_trans; apply split_head_prefix.
Qed.

End Prefixes.

(** X1. The cleaned output of a measured run holds neither of the two
    report markers, does not end in whitespace, and is a prefix of the
    text it was cut from. *)
Theorem clean_output_is_marker_free_prefix (output : string) :
  Str.find BEING_TIMED (_get_clean_output_from_measured_output output) = None
  /\ Str.find NON_ZERO_STATUS (_get_clean_output_from_measured_output output)
     = None
  /\ Str.ends_with_space (_get_clean_output_from_measured_output output) = false
  /\ Str.startswith (_get_clean_output_from_measured_output output) output
     = true.
Proof.
  repeat split.
  - apply clean_output_no_being_timed.
  - apply clean_output_no_non_zero_status.
  - rewrite clean_output_unfold. apply rstrip_no_trailing_space.
  - apply clean_output_prefix.
Qed.

(** X2. Cleaning is idempotent: a cleaned output is cleaned to itself. *)
Theorem clean_output_idempotent (output : string) :
  _get_clean_output_from_measured_output
    (_get_clean_output_from_measured_output output)
  = _get_clean_output_from_measured_output output.
Proof.
  rewrite (clean_output_unfold (_get_clean_output_from_measured_output output)).
  rewrite (split_head_find BEING_TIMED), clean_output_no_being_timed.
  rewrite (split_head_find NON_ZERO_STATUS), clean_output_no_non_zero_status.
  apply rstrip_fixed.
  rewrite clean_output_unfold. apply rstrip_no_trailing_space.
Qed.

(** ** More on color stripping *)

Section MoreColors.

Lemma append_empty_r (s : string) : s ++ "" = s.
Proof. induction s as [|c s IH]; [reflexivity|]. cbn. now rewrite IH. Qed.

Lemma append_assoc3 (a b c : string) : (a ++ b) ++ c = a ++ b ++ c.
Proof. induction a as [|x a IH]; [reflexivity|]. cbn. now rewrite IH. Qed.

Lemma has_m_app (a b : string) :
  Str.has_m (a ++ b) = Str.has_m a || Str.has_m b.
Proof.
  induction a as [|c a IH]; [reflexivity|].
  cbn [append Str.has_m]. now rewrite IH, orb_assoc.
Qed.

(** Inside a sequence, everything up to the first [m] is dropped. *)
Lemma skip_color_to_m (code rest : string) :
  Str.has_m code = false ->
  skip_color (code ++ String "m" rest) = _strip_shell_colors rest.
Proof.
  induction code as [|c code IH]; intros H; [reflexivity|].
  cbn [Str.has_m] in H. apply orb_false_elim in H as [Hc Hcode].
  cbn [append skip_color]. rewrite Hc. now apply IH.
Qed.

(** Text free of the escape character passes through. *)
Lemma strip_app_no_esc (a b : string) :
  Str.absent Char.ESC a = true ->
  _strip_shell_colors (a ++ b) = a ++ _strip_shell_colors b.
Proof.
  induction a as [|c a IH]; intros H; [reflexivity|].
  cbn [Str.absent] in H. apply andb_true_iff in H as [Hc Ha].
  cbn [append _strip_shell_colors].
  assert (Hesc : Char.is_esc c = false).
  { unfold Char.is_esc. rewrite Ascii.eqb_sym. now apply negb_true_iff. }
  rewrite Hesc. cbn. now rewrite IH.
Qed.

Lemma strip_sequence (code rest : string) :
  Str.has_m code = false ->
  _strip_shell_colors (String Char.ESC (code ++ String "m" rest))
  = _strip_shell_colors rest.
Proof.
  intros H. cbn [_strip_shell_colors].
  change (Char.is_esc Char.ESC) with true.
  rewrite has_m_app. cbn [Str.has_m]. change (Char.is_m "m") with true.
  rewrite orb_true_r. cbn [andb]. now apply skip_color_to_m.
Qed.

Lemma strip_skip_length (s : string) :
  (String.length (_strip_shell_colors s) <= String.length s)%nat
  /\ (String.length (skip_color s) <= String.length s)%nat.
Proof.
  induction s as [|c s [IHstrip IHskip]]; [now split|].
  cbn [_strip_shell_colors skip_color String.length]. split.
  - destruct (Char.is_esc c && Str.has_m s); cbn [String.length]; lia.
  - destruct (Char.is_m c); lia.
Qed.

End MoreColors.

(** X3. Coloring and stripping cancel: a text free of the escape
    character, put between two color sequences (the escape character, a
    code without [m], the letter [m]), is given back by the stripping. *)
Theorem strip_shell_colors_undoes_coloring (code code' text : string) :
  Str.has_m code = false ->
  Str.has_m code' = false ->
  Str.absent Char.ESC text = true ->
  _strip_shell_colors (colored_with code code' text) = text.
Proof.
  intros Hcode Hcode' Htext. unfold colored_with.
  cbn [append]. rewrite append_assoc3. cbn [append].
  rewrite (strip_sequence code _ Hcode).
  rewrite (strip_app_no_esc text _ Htext).
  replace (code' ++ "m") with (code' ++ String "m" "") by reflexivity.
  rewrite (strip_sequence code' "" Hcode').
  cbn [_strip_shell_colors]. apply append_empty_r.
Qed.

Lemma strip_shell_colors_undoes_coloring_witness :
  (Str.has_m "[1;31" = false
   /\ Str.has_m "[0" = false
   /\ Str.absent Char.ESC "error: no input" = true)
  /\ _strip_shell_colors (colored_with "[1;31" "[0" "error: no input")
     = "error: no input".
Proof.
  assert (H1 : Str.has_m "[1;31" = false) by reflexivity.
  assert (H2 : Str.has_m "[0" = false) by reflexivity.
  assert (H3 : Str.absent Char.ESC "error: no input" = true) by reflexivity.
  split; [now repeat split|].
  exact (strip_shell_colors_undoes_coloring _ _ _ H1 H2 H3).
Defined.

(** X4. The stripping changes a text exactly when the text holds a color
    sequence, and never makes it longer. *)
Theorem strip_shell_colors_changes_only_colored (text : string) :
  (_strip_shell_colors text = text <-> has_shell_color text = false)
  /\ (String.length (_strip_shell_colors text) <= String.length text)%nat.
Proof.
  split; [split|].
  - intros H. rewrite <- H. apply strip_no_color.
  - apply no_color_strip.
  - apply strip_skip_length.
Qed.

(** ** More on the memory reading *)

Section MoreMemory.

Lemma search_memory_none (output : string) :
  Str.find MEMORY_MARKER output = None -> search_memory output = None.
Proof.
  induction output as [|c s IH]; cbn [Str.find search_memory]; unfold match_memory.
  - reflexivity.
  - destruct (Str.startswith MEMORY_MARKER (String c s)); [discriminate|].
    destruct (Str.find MEMORY_MARKER s); [discriminate|]. intros _. now apply IH.
Qed.

Lemma digits_prefix_all_digits (s : string) :
  Str.all_digits (Str.digits_prefix s) = true.
Proof.
  induction s as [|c s IH]; [reflexivity|].
  cbn [Str.digits_prefix]. destruct (Char.isdigit c) eqn:E; [|reflexivity].
  cbn [Str.all_digits]. now rewrite E.
Qed.

Lemma match_memory_digits (text g : string) :
  match_memory text = Some g -> g <> "" /\ Str.all_digits g = true.
Proof.
  unfold match_memory.
  destruct (Str.startswith MEMORY_MARKER text); [|discriminate].
  pose proof (digits_prefix_all_digits
                (Str.drop (String.length MEMORY_MARKER) text)) as Hd.
  destruct (Str.digits_prefix _) as [|c r]; [discriminate|].
  intros H. inversion H; subst. now split.
Qed.

Lemma search_memory_digits (output g : string) :
  search_memory output = Some g -> g <> "" /\ Str.all_digits g = true.
Proof.
  induction output as [|c s IH]; cbn [search_memory].
  - destruct (match_memory "") eqn:E; [|discriminate].
    intros H. inversion H; subst. now apply match_memory_digits with (text := "").
  - destruct (match_memory (String c s)) eqn:E.
    + intros H. inversion H; subst. now apply match_memory_digits in E.
    + exact IH.
Qed.

(** A marker followed by a digit is found, if no earlier one is. *)
Lemma search_memory_some (pre : string) (d : ascii) (rest : string) :
  Char.isdigit d = true ->
  search_memory (pre ++ MEMORY_MARKER ++ String d rest) <> None.
Proof.
  intros Hd. induction pre as [|c pre IH].
  - cbn [append]. change ("" ++ MEMORY_MARKER ++ String d rest)
      with (MEMORY_MARKER ++ String d rest).
    assert (Hm : match_memory (MEMORY_MARKER ++ String d rest) <> None).
    { unfold match_memory.
      change (Str.startswith MEMORY_MARKER (MEMORY_MARKER ++ String d rest))
        with true.
      change (Str.drop (String.length MEMORY_MARKER)
                (MEMORY_MARKER ++ String d rest)) with (String d rest).
      cbn [Str.digits_prefix]. now rewrite Hd. }
    destruct (MEMORY_MARKER ++ String d rest); cbn [search_memory];
      destruct (match_memory _); congruence.
  - cbn [append search_memory].
    destruct (match_memory (String c (pre ++ MEMORY_MARKER ++ String d rest)));
      [discriminate|exact IH].
Qed.

Lemma round_half_even_shr_lower (a s : Z) :
  (Z.shiftr a s <= round_half_even_shr a s)%Z.
Proof.
  unfold round_half_even_shr.
  destruct (_ <? _)%Z; [lia|]. destruct (_ <? _)%Z; [lia|].
  destruct (Z.even _); lia.
Qed.

(** The rounded numerator of the division is not below zero. *)
Lemma truediv_1024_nonneg (k : Z) (x : Q) :
  (0 <= k)%Z -> truediv_1024 k = Returned x -> (0 <= int_of_float x)%Z.
Proof.
  intros Hk. unfold truediv_1024.
  set (bits := if (k =? 0)%Z then 0%Z else (Z.log2 k + 1)%Z).
  set (a' := if (bits <=? 53)%Z then k
             else Z.shiftl (round_half_even_shr k (bits - 53)) (bits - 53)).
  assert (Ha : (0 <= a')%Z).
  { unfold a'. destruct (bits <=? 53)%Z; [exact Hk|].
    apply Z.shiftl_nonneg.
    pose proof (round_half_even_shr_lower k (bits - 53)).
    assert (0 <= Z.shiftr k (bits - 53))%Z by (now apply Z.shiftr_nonneg). lia. }
  destruct (2 ^ 1034 <=? a')%Z; [discriminate|].
  intros H. inversion H; subst. unfold int_of_float. cbn [Qnum Qden].
  rewrite Z.quot_div_nonneg by lia. apply Z.div_pos; lia.
Qed.

(** From [2^1034] on the quotient has no finite float. *)
Lemma truediv_1024_overflow (k : Z) :
  (2 ^ 1034 <= k)%Z -> truediv_1024 k = Raised OverflowError.
Proof.
  intros Hk. unfold truediv_1024.
  assert (Hpos : (0 < k)%Z).
  { assert (0 < 2 ^ 1034)%Z by (apply Z.pow_pos_nonneg; lia). lia. }
  assert (Hlog : (1034 <= Z.log2 k)%Z).
  { rewrite <- (Z.log2_pow2 1034) by lia. now apply Z.log2_le_mono. }
  destruct (Z.eqb_spec k 0); [lia|].
  destruct (Z.leb_spec (Z.log2 k + 1) 53); [lia|].
  set (s := (Z.log2 k + 1 - 53)%Z).
  assert (Hs : (0 <= s)%Z) by (unfold s; lia).
  assert (Hq : (2 ^ 52 <= Z.shiftr k s)%Z).
  { rewrite Z.shiftr_div_pow2 by exact Hs.
    destruct (Z.log2_spec k Hpos) as [Hlow _].
    assert (Hsplit : (2 ^ Z.log2 k = 2 ^ 52 * 2 ^ s)%Z).
    { rewrite <- Z.pow_add_r by lia. f_equal. unfold s. lia. }
    assert (H2s : (0 < 2 ^ s)%Z) by (apply Z.pow_pos_nonneg; lia).
    apply Z.div_le_lower_bound; [exact H2s|]. lia. }
  assert (Hbig : (2 ^ 1034 <= Z.shiftl (round_half_even_shr k s) s)%Z).
  { rewrite Z.shiftl_mul_pow2 by exact Hs.
    pose proof (round_half_even_shr_lower k s) as Hr.
    assert (H2s : (0 < 2 ^ s)%Z) by (apply Z.pow_pos_nonneg; lia).
    assert (Hexp : (2 ^ 1034 <= 2 ^ 52 * 2 ^ s)%Z).
    { rewrite <- Z.pow_add_r by lia. apply Z.pow_le_mono_r; unfold s; lia. }
    nia. }
  destruct (Z.leb_spec (2 ^ 1034) (Z.shiftl (round_half_even_shr k s) s));
    [reflexivity|lia].
Qed.

End MoreMemory.

(** X5. An output without the marker [Maximum resident set size
    (kbytes): ] reports 0 megabytes and raises nothing. *)
Theorem memory_is_zero_without_marker (output : string) :
  Str.find MEMORY_MARKER output = None ->
  _get_memory_from_measured_output output = Returned 0%Z.
Proof.
  intros H. unfold _get_memory_from_measured_output.
  now rewrite (search_memory_none output H).
Qed.

Lemma memory_is_zero_without_marker_witness :
  Str.find MEMORY_MARKER ("hello" ++ Sample.nl ++ "Elapsed: 2 s") = None
  /\ _get_memory_from_measured_output ("hello" ++ Sample.nl ++ "Elapsed: 2 s")
     = Returned 0%Z.
Proof.
  assert (H : Str.find MEMORY_MARKER ("hello" ++ Sample.nl ++ "Elapsed: 2 s")
              = None) by reflexivity.
  split; [exact H|].
  exact (memory_is_zero_without_marker _ H).
Defined.

(** X6. When the marker is followed by a digit somewhere in the output,
    a memory that is returned is at least 1, however large or small the
    number: 0 is kept for outputs without a report. *)
Theorem memory_is_positive_when_reported
    (pre : string) (d : ascii) (rest : string) (m : Z) :
  Char.isdigit d = true ->
  _get_memory_from_measured_output (pre ++ MEMORY_MARKER ++ String d rest)
    = Returned m ->
  (1 <= m)%Z.
Proof.
  intros Hd. unfold _get_memory_from_measured_output.
  pose proof (search_memory_some pre d rest Hd) as Hsome.
  destruct (search_memory (pre ++ MEMORY_MARKER ++ String d rest))
    as [g|] eqn:E; [|congruence].
  destruct (search_memory_digits _ _ E) as [Hne Hdig].
  destruct g as [|c g]; [congruence|].
  destruct (truediv_1024 (Str.int (String c g))) as [x|e] eqn:Ediv;
    [|discriminate].
  pose proof (truediv_1024_nonneg _ _ (int_nonneg _ Hdig) Ediv) as Hx.
  intros H. inversion H; subst.
  destruct (Z.eqb_spec (int_of_float x) 0); lia.
Qed.

Lemma memory_is_positive_when_reported_witness :
  (Char.isdigit "7" = true
   /\ _get_memory_from_measured_output
        (Sample.indent ++ MEMORY_MARKER ++ String "7" "00")
      = Returned 1%Z)
  /\ (1 <= 1)%Z.
Proof.
  assert (H1 : Char.isdigit "7" = true) by reflexivity.
  assert (H2 : _get_memory_from_measured_output
                 (Sample.indent ++ MEMORY_MARKER ++ String "7" "00")
               = Returned 1%Z) by reflexivity.
  split; [now split|].
  exact (memory_is_positive_when_reported _ _ _ _ H1 H2).
Defined.

(** X7. When the first marker is followed by the digits of a number from
    [2^1034] on, reading the memory raises [OverflowError]: the quotient
    by 1024 has no finite float.  The digits are 4300 at most, which every
    Python 3 lets [int] read. *)
Theorem memory_overflows_on_huge_report (pre g post : string) :
  Str.find MEMORY_MARKER (pre ++ MEMORY_MARKER ++ g ++ post)
    = Some (String.length pre) ->
  g <> "" -> Str.all_digits g = true -> Str.digits_prefix post = "" ->
  (String.length g <= 4300)%nat ->
  (2 ^ 1034 <= Str.int g)%Z ->
  _get_memory_from_measured_output (pre ++ MEMORY_MARKER ++ g ++ post)
  = Raised OverflowError.
Proof.
  intros Hfind Hne Hd Hp _ Hk. unfold _get_memory_from_measured_output.
  rewrite (search_memory_found pre g post Hfind Hne Hd Hp).
  destruct g as [|c g]; [congruence|].
  now rewrite (truediv_1024_overflow _ Hk).
Qed.

Lemma memory_overflows_on_huge_report_witness :
  (Str.find MEMORY_MARKER (Sample.indent ++ MEMORY_MARKER ++ Cases.huge ++ Sample.nl)
     = Some (String.length Sample.indent)
   /\ Cases.huge <> ""
   /\ Str.all_digits Cases.huge = true
   /\ Str.digits_prefix Sample.nl = ""
   /\ (String.length Cases.huge <= 4300)%nat
   /\ (2 ^ 1034 <= Str.int Cases.huge)%Z)
  /\ _get_memory_from_measured_output
       (Sample.indent ++ MEMORY_MARKER ++ Cases.huge ++ Sample.nl)
     = Raised OverflowError.
Proof.
  assert (H1 : Str.find MEMORY_MARKER
                 (Sample.indent ++ MEMORY_MARKER ++ Cases.huge ++ Sample.nl)
               = Some (String.length Sample.indent)) by (vm_compute; reflexivity).
  assert (H2 : Cases.huge <> "") by (vm_compute; discriminate).
  assert (H3 : Str.all_digits Cases.huge = true) by (vm_compute; reflexivity).
  assert (H4 : Str.digits_prefix Sample.nl = "") by reflexivity.
  assert (H5 : (String.length Cases.huge <= 4300)%nat)
    by (apply Nat.leb_le; vm_compute; reflexivity).
  assert (H6 : (2 ^ 1034 <= Str.int Cases.huge)%Z)
    by (apply Z.leb_le; vm_compute; reflexivity).
  split; [now repeat split|].
  exact (memory_overflows_on_huge_report _ _ _ H1 H2 H3 H4 H5 H6).
Defined.

(** ** More on runs *)

Section MoreRuns.

Variable h : host.

(** Whether memory is tracked is settled without an event; only an empty
    [LOG_TIME] makes it fail. *)
Lemma tracks_memory_cases (tm : bool) :
  (exists tracked, tracks_memory h tm [] = ([], Returned tracked))
  \/ (tm = true /\ LOG_TIME h = []
      /\ tracks_memory h tm [] = ([], Raised IndexError)).
Proof.
  destruct tm.
  - destruct (LOG_TIME h) as [|t rest] eqn:E.
    + right. repeat split; try assumption.
      unfold tracks_memory, LOG_TIME_0, bind. now rewrite E.
    + left. exists (Utils.tool_exists h t).
      now apply tracks_memory_tool with (rest := rest).
  - left. now exists false.
Qed.

Lemma _run_cmd_no_config cmd input timeout b tm :
  tracks_memory h tm [] = ([], Raised IndexError) ->
  run (_run_cmd h cmd input timeout b tm) = ([], Raised IndexError).
Proof.
  intros H. unfold run, _run_cmd, bind. now rewrite H.
Qed.

(** The memory reading raises nothing but [OverflowError]. *)
Lemma memory_raises_overflow_only (output : string) (e : exn) :
  _get_memory_from_measured_output output = Raised e -> e = OverflowError.
Proof.
  unfold _get_memory_from_measured_output, truediv_1024.
  destruct (search_memory output) as [[|c g]|]; try discriminate.
  destruct (2 ^ 1034 <=? _)%Z; [|discriminate].
  intros H. now inversion H.
Qed.

(** A run that ends in time, memory being tracked. *)
Lemma _run_cmd_measured cmd input timeout b tm r :
  tracks_memory h tm [] = ([], Returned true) ->
  spawn h (launched h (LOG_TIME h ++ cmd)%list) = Some r ->
  expires timeout (r input) = false ->
  run (_run_cmd h cmd input timeout b tm)
  = ([Launch (launched h (LOG_TIME h ++ cmd)%list) b;
      Handle SIGINT; Handle SIGTERM; Communicate input timeout],
     match captured b (written (r input)) with
     | Some (String c s) =>
         let text := _strip_shell_colors (Str.rstrip (String c s)) in
         match _get_memory_from_measured_output text with
         | Returned memory =>
             Returned (memory,
                       Some (_get_clean_output_from_measured_output text),
                       returncode (r input), false)
         | Raised e => Raised e
         end
     | output => Returned (0%Z, output, returncode (r input), false)
     end).
Proof.
  intros Htm Hspawn Hexp.
  unfold run, _run_cmd, bind. rewrite Htm.
  rewrite (start_launches h _ _ _ _ Hspawn).
  unfold try_except, communicate, bind, emit, raise, ret, lift.
  cbn [app reaction stdout_piped]. rewrite Hexp.
  destruct (captured b (written (r input))) as [[|c s]|]; cbn [truthy];
    try reflexivity.
  cbn [option_map].
  destruct (_get_memory_from_measured_output _) as [memory|e] eqn:E;
    [reflexivity|].
  now rewrite (memory_raises_overflow_only _ _ E).
Qed.

Lemma has_m_prefix (p : string) :
  forall s, Str.startswith p s = true -> Str.has_m p = true ->
            Str.has_m s = true.
Proof.
  induction p as [|a p IH]; intros s Hp Hm; [discriminate|].
  destruct s as [|c s]; [discriminate|].
  cbn [Str.startswith] in Hp. apply andb_true_iff in Hp as [Hac Hp].
  apply Ascii.eqb_eq in Hac. subst c.
  cbn [Str.has_m] in *. apply orb_true_iff in Hm as [Hm|Hm].
  - now rewrite Hm.
  - rewrite (IH s Hp Hm). apply orb_true_r.
Qed.

(** A prefix of a text without color sequence has none. *)
Lemma no_color_prefix (p : string) :
  forall s, Str.startswith p s = true -> has_shell_color s = false ->
            has_shell_color p = false.
Proof.
  induction p as [|a p IH]; intros s Hp Hs; [reflexivity|].
  destruct s as [|c s]; [discriminate|].
  cbn [Str.startswith] in Hp. apply andb_true_iff in Hp as [Hac Hp].
  apply Ascii.eqb_eq in Hac. subst c.
  cbn [has_shell_color] in *. apply orb_false_elim in Hs as [Hhead Htail].
  rewrite (IH s Hp Htail), orb_false_r.
  destruct (Char.is_esc a); [|reflexivity]. cbn [andb] in *.
  destruct (Str.has_m p) eqn:E; [|reflexivity].
  now rewrite (has_m_prefix p s Hp E) in Hhead.
Qed.

Lemma tidy_no_color (output : option string) (out : string) :
  tidy output = Some out -> has_shell_color out = false.
Proof.
  destruct output as [s|]; [|discriminate].
  rewrite tidy_text. intros H. inversion H. apply strip_no_color.
Qed.

(** The output [_run_cmd] returns holds no color sequence. *)
Lemma _run_cmd_no_color cmd input timeout b tm memory out rc f :
  value (_run_cmd h cmd input timeout b tm)
    = Returned (memory, Some out, rc, f) ->
  has_shell_color out = false.
Proof.
  unfold value.
  destruct (tracks_memory_cases tm) as [[tracked Htm]|[_ [_ Htm]]].
  2:{ rewrite (_run_cmd_no_config _ _ _ _ _ Htm). discriminate. }
  destruct (spawn h (launched h (wrapped h tracked cmd))) as [r|] eqn:Hspawn.
  2:{ rewrite (_run_cmd_not_started h _ _ _ _ _ _ Htm Hspawn). discriminate. }
  destruct (expires timeout (r input)) eqn:Hexp.
  - destruct timeout as [t|]; [|discriminate].
    rewrite (_run_cmd_expired h _ _ _ _ _ _ _ Htm Hspawn Hexp).
    cbn [snd]. intros H. inversion H. now apply tidy_no_color in H2.
  - destruct tracked.
    + rewrite (_run_cmd_measured _ _ _ _ _ _ Htm Hspawn Hexp). cbn [snd].
      destruct (captured b (written (r input))) as [[|c s]|].
      * intros H. now inversion H.
      * cbv zeta. destruct (_get_memory_from_measured_output _); [|discriminate].
        intros H. inversion H.
        apply no_color_prefix
          with (s := _strip_shell_colors (Str.rstrip (String c s)));
          [apply clean_output_prefix|apply strip_no_color].
      * discriminate.
    + rewrite (_run_cmd_finished h _ _ _ _ _ _ Htm Hspawn Hexp).
      cbn [snd]. intros H. inversion H. now apply tidy_no_color in H2.
Qed.


End MoreRuns.

(** X8. On a host with the measurement utility, a measured run whose
    command ends in time launches the utility in front of the command,
    reads the memory from the captured text (after [rstrip] and color
    stripping) and returns that text cut at the report; an exception of
    the memory reading leaves [run_measured_cmd] uncaught. *)
Theorem measured_run_reads_and_cuts_report
    h tool rest path t_start t_end cmd input timeout r :
  LOG_TIME h = tool :: rest ->
  which h tool = Some path ->
  spawn h (launched h (LOG_TIME h ++ cmd)%list) = Some r ->
  expires timeout (r input) = false ->
  run (run_measured_cmd h t_start t_end cmd input timeout)
  = ([Launch (launched h (LOG_TIME h ++ cmd)%list) true;
      Handle SIGINT; Handle SIGTERM; Communicate input timeout],
     let text := _strip_shell_colors (Str.rstrip (written (r input))) in
     match _get_memory_from_measured_output text with
     | Returned memory =>
         Returned (memory, elapsed_seconds t_start t_end,
                   Some (_get_clean_output_from_measured_output text),
                   returncode (r input))
     | Raised e => Raised e
     end).
Proof.
  intros Hcfg Hwhich Hspawn Hexp.
  pose proof (_run_cmd_measured h cmd input timeout true true r
                (tracks_memory_tool_found h tool rest path Hcfg Hwhich)
                Hspawn Hexp) as H.
  unfold run, run_measured_cmd, bind in *. rewrite H. cbn [captured].
  destruct (written (r input)) as [|c s]; [reflexivity|].
  cbv zeta. now destruct (_get_memory_from_measured_output _).
Qed.

Lemma measured_run_reads_and_cuts_report_witness :
  (LOG_TIME (Sample.linux (Some "/usr/bin/time")
               (Sample.writes Sample.measured_hello ""))
     = "/usr/bin/time" :: ["-v"]
   /\ which (Sample.linux (Some "/usr/bin/time")
               (Sample.writes Sample.measured_hello ""))
        "/usr/bin/time" = Some "/usr/bin/time"
   /\ spawn (Sample.linux (Some "/usr/bin/time")
               (Sample.writes Sample.measured_hello ""))
        ["/usr/bin/time"; "-v"; "ls"]
      = Some (fun _ => Sample.writes Sample.measured_hello "")
   /\ expires (Some 3%Q) (Sample.writes Sample.measured_hello "") = false)
  /\ run (run_measured_cmd
            (Sample.linux (Some "/usr/bin/time")
               (Sample.writes Sample.measured_hello ""))
            10 (47 # 4) ["ls"] "" (Some 3%Q))
     = ([Launch ["/usr/bin/time"; "-v"; "ls"] true;
         Handle SIGINT; Handle SIGTERM; Communicate "" (Some 3%Q)],
        Returned (4%Z, 1%Z, Some "hello", 0%Z)).
Proof.
  assert (H1 : LOG_TIME (Sample.linux (Some "/usr/bin/time")
                           (Sample.writes Sample.measured_hello ""))
               = "/usr/bin/time" :: ["-v"]) by reflexivity.
  assert (H2 : which (Sample.linux (Some "/usr/bin/time")
                        (Sample.writes Sample.measured_hello ""))
                 "/usr/bin/time" = Some "/usr/bin/time") by reflexivity.
  assert (H3 : spawn (Sample.linux (Some "/usr/bin/time")
                        (Sample.writes Sample.measured_hello ""))
                 ["/usr/bin/time"; "-v"; "ls"]
               = Some (fun _ => Sample.writes Sample.measured_hello ""))
    by reflexivity.
  assert (H4 : expires (Some 3%Q) (Sample.writes Sample.measured_hello "")
               = false) by reflexivity.
  split; [now repeat split|].
  exact (measured_run_reads_and_cuts_report _ _ _ _ 10 (47 # 4) ["ls"] "" _ _
           H1 H2 H3 H4).
Defined.

(** X9. No output that [run_cmd] or [run_measured_cmd] returns holds a
    color sequence, whether the command ended in time or was killed, and
    whether or not its memory was measured. *)
Theorem returned_output_has_no_color h cmd input timeout :
  (forall b out rc f,
      value (run_cmd h cmd input timeout b) = Returned (Some out, rc, f) ->
      has_shell_color out = false)
  /\ (forall t_start t_end memory elapsed out rc,
         value (run_measured_cmd h t_start t_end cmd input timeout)
           = Returned (memory, elapsed, Some out, rc) ->
         has_shell_color out = false).
Proof.
  split.
  - intros b out rc f. unfold value, run, run_cmd, bind.
    destruct (_run_cmd h cmd input timeout b false [])
      as [log [[[[m o] rc'] f']|e]] eqn:E; cbn [snd]; [|discriminate].
    intros H. inversion H; subst.
    apply (_run_cmd_no_color h cmd input timeout b false m out rc f).
    unfold value, run. now rewrite E.
  - intros t_start t_end memory elapsed out rc.
    unfold value, run, run_measured_cmd, bind.
    destruct (_run_cmd h cmd input timeout true true [])
      as [log [[[[m o] rc'] f']|e]] eqn:E; cbn [snd]; [|discriminate].
    intros H. inversion H; subst.
    apply (_run_cmd_no_color h cmd input timeout true true memory out rc f').
    unfold value, run. now rewrite E.
Qed.

Lemma returned_output_has_no_color_witness :
  value (run_cmd (Sample.linux None (Sample.writes "done" Sample.colored))
           ["ls"] "" (Some 1%Q) true)
    = Returned (Some "abc ", 137%Z, true)
  /\ has_shell_color "abc " = false.
Proof.
  assert (H : value (run_cmd (Sample.linux None
                                (Sample.writes "done" Sample.colored))
                       ["ls"] "" (Some 1%Q) true)
              = Returned (Some "abc ", 137%Z, true)) by reflexivity.
  split; [exact H|].
  exact (proj1 (returned_output_has_no_color _ _ _ _) _ _ _ _ H).
Defined.



(** X11. When the command cannot be started, [run_cmd] raises the error
    of the launch; no handler is installed and nothing is killed.  The
    same holds for [run_measured_cmd] and the command it starts. *)
Theorem launch_failure_is_raised h cmd input timeout :
  (forall b,
      spawn h (launched h cmd) = None ->
      run (run_cmd h cmd input timeout b) = ([], Raised OSError))
  /\ (forall tool rest t_start t_end,
         LOG_TIME h = tool :: rest ->
         spawn h (launched h (wrapped h (Utils.tool_exists h tool) cmd)) = None ->
         run (run_measured_cmd h t_start t_end cmd input timeout)
         = ([], Raised OSError)).
Proof.
  split.
  - intros b Hspawn.
    pose proof (_run_cmd_not_started h cmd input timeout b false false
                  (tracks_memory_off h []) Hspawn) as H.
    unfold run, run_cmd, bind in *. now rewrite H.
  - intros tool rest t_start t_end Hcfg Hspawn.
    pose proof (_run_cmd_not_started h cmd input timeout true true _
                  (tracks_memory_tool h tool rest [] Hcfg) Hspawn) as H.
    unfold run, run_measured_cmd, bind in *. now rewrite H.
Qed.

(** X12. With an empty [LOG_TIME] in the configuration every measured
    run raises [IndexError] before anything is launched. *)
Theorem measured_run_needs_log_time h t_start t_end cmd input timeout :
  LOG_TIME h = [] ->
  run (run_measured_cmd h t_start t_end cmd input timeout)
  = ([], Raised IndexError).
Proof.
  intros Hcfg.
  destruct (tracks_memory_cases h true) as [[tracked Htm]|[_ [_ Htm]]].
  - exfalso. revert Htm. unfold tracks_memory, LOG_TIME_0, bind.
    rewrite Hcfg. discriminate.
  - pose proof (_run_cmd_no_config h cmd input timeout true true Htm) as H.
    unfold run, run_measured_cmd, bind in *. now rewrite H.
Qed.

Lemma launch_failure_is_raised_witness :
  (spawn Cases.no_such_command (launched Cases.no_such_command ["nothing"]) = None
   /\ LOG_TIME Cases.no_such_command = "/usr/bin/time" :: ["-v"]
   /\ spawn Cases.no_such_command
        (launched Cases.no_such_command
           (wrapped Cases.no_such_command
              (Utils.tool_exists Cases.no_such_command "/usr/bin/time")
              ["nothing"])) = None)
  /\ run (run_cmd Cases.no_such_command ["nothing"] "" None true)
     = ([], Raised OSError)
  /\ run (run_measured_cmd Cases.no_such_command 10 11 ["nothing"] "" None)
     = ([], Raised OSError).
Proof.
  assert (H1 : spawn Cases.no_such_command
                 (launched Cases.no_such_command ["nothing"]) = None)
    by reflexivity.
  assert (H2 : LOG_TIME Cases.no_such_command = "/usr/bin/time" :: ["-v"])
    by reflexivity.
  assert (H3 : spawn Cases.no_such_command
                 (launched Cases.no_such_command
                    (wrapped Cases.no_such_command
                       (Utils.tool_exists Cases.no_such_command "/usr/bin/time")
                       ["nothing"])) = None) by reflexivity.
  split; [now repeat split|].
  destruct (launch_failure_is_raised Cases.no_such_command ["nothing"] "" None)
    as [Hplain Hmeasured].
  split; [exact (Hplain true H1)|exact (Hmeasured _ _ 10%Q 11%Q H2 H3)].
Defined.

Lemma measured_run_needs_log_time_witness :
  LOG_TIME Cases.unconfigured = []
  /\ run (run_measured_cmd Cases.unconfigured 10 11 ["ls"] "" None)
     = ([], Raised IndexError).
Proof.
  assert (H : LOG_TIME Cases.unconfigured = []) by reflexivity.
  split; [exact H|].
  exact (measured_run_needs_log_time _ 10 11 ["ls"] "" None H).
Defined.

(** ** The script shim of Windows *)

Section Shim.

Lemma endswith_app (p pre : string) : Str.endswith p (pre ++ p) = true.
Proof.
  induction pre as [|c pre IH].
  - cbn [append]. destruct p; cbn [Str.endswith];
      now rewrite String.eqb_refl.
  - cbn [append Str.endswith]. rewrite IH. apply orb_true_r.
Qed.

Lemma endswith_inv (p s : string) :
  Str.endswith p s = true -> exists pre, s = pre ++ p.
Proof.
  induction s as [|c s IH]; cbn [Str.endswith]; intros H.
  - apply orb_true_iff in H as [H|H]; [|discriminate].
    apply String.eqb_eq in H. now exists "".
  - apply orb_true_iff in H as [H|H].
    + apply String.eqb_eq in H. now exists "".
    + destruct (IH H) as [pre ->]. now exists (String c pre).
Qed.

End Shim.

(** X13. On Windows a command whose first argument ends in [.py] is
    started with the interpreter in front of it; no other command, and no
    command on another platform, is changed on its way to the operating
    system. *)
Theorem script_runs_through_interpreter h :
  (Utils.is_windows h = true ->
   forall name rest,
     launched h ((name ++ ".py") :: rest)
     = sys_executable h :: (name ++ ".py") :: rest)
  /\ (forall cmd,
         launched h cmd <> cmd ->
         Utils.is_windows h = true
         /\ exists name rest, cmd = (name ++ ".py") :: rest).
Proof.
  split.
  - intros Hwin name rest. unfold launched, windows_args.
    now rewrite Hwin, endswith_app.
  - intros cmd. unfold launched, windows_args.
    destruct (Utils.is_windows h); [|congruence].
    destruct cmd as [|a rest]; [congruence|].
    destruct (Str.endswith ".py" a) eqn:E; [|congruence].
    intros _. split; [reflexivity|].
    destruct (endswith_inv _ _ E) as [name ->]. now exists name, rest.
Qed.

Lemma script_runs_through_interpreter_witness :
  Utils.is_windows (Sample.windows_host Sample.slow) = true
  /\ launched (Sample.windows_host Sample.slow)
       (("retdec-decompiler" ++ ".py") :: ["--help"])
     = sys_executable (Sample.windows_host Sample.slow)
         :: ("retdec-decompiler" ++ ".py") :: ["--help"].
Proof.
  assert (H : Utils.is_windows (Sample.windows_host Sample.slow) = true)
    by reflexivity.
  split; [exact H|].
  exact (proj1 (script_runs_through_interpreter _) H "retdec-decompiler"
           ["--help"]).
Defined.

(** ** The number tests *)

Section Patterns.

Variable f : ascii -> bool.

Lemma while_split (s : string) :
  s = Re.take_while f s ++ Re.drop_while f s
  /\ Re.all f (Re.take_while f s) = true
  /\ Re.stops f (Re.drop_while f s) = true.
Proof.
  induction s as [|c s [IHs [IHa IHd]]]; [now repeat split|].
  cbn [Re.take_while Re.drop_while]. destruct (f c) eqn:E.
  - cbn [append Re.all]. rewrite E. repeat split; try assumption.
    now rewrite <- IHs.
  - cbn [append Re.stops Re.all]. now rewrite E.
Qed.

Lemma drop_while_app (d rest : string) :
  Re.all f d = true -> Re.stops f rest = true ->
  Re.drop_while f (d ++ rest) = rest.
Proof.
  induction d as [|c d IH]; intros Hd Hr.
  - cbn [append]. destruct rest as [|x rest]; [reflexivity|].
    cbn [Re.stops] in Hr. apply negb_true_iff in Hr.
    cbn [Re.drop_while]. now rewrite Hr.
  - cbn [Re.all] in Hd. apply andb_true_iff in Hd as [Hc Hd].
    cbn [append Re.drop_while]. rewrite Hc. now apply IH.
Qed.

(** A repeated class: the characters of the class that open the text,
    one at least, and then what follows. *)
Lemma plus_spec (k : string -> bool) (s : string) :
  Re.plus f k s = true <->
  exists d rest, s = d ++ rest /\ d <> "" /\ Re.all f d = true
                 /\ Re.stops f rest = true /\ k rest = true.
Proof.
  split.
  - destruct s as [|c s]; [discriminate|]. unfold Re.plus.
    intros H. apply andb_true_iff in H as [Hc Hk].
    destruct (while_split (String c s)) as [Hs [Ha Hd]].
    exists (Re.take_while f (String c s)), (Re.drop_while f (String c s)).
    repeat split; try assumption.
    cbn [Re.take_while]. rewrite Hc. discriminate.
  - intros [d [rest [-> [Hne [Ha [Hr Hk]]]]]].
    destruct d as [|c d]; [congruence|].
    unfold Re.plus. cbn [append].
    change (String c (d ++ rest)) with (String c d ++ rest).
    rewrite (drop_while_app _ _ Ha Hr), Hk.
    cbn [Re.all] in Ha. apply andb_true_iff in Ha as [-> _]. reflexivity.
Qed.

End Patterns.

Section Literals.

Lemma startswith_app (p rest : string) : Str.startswith p (p ++ rest) = true.
Proof.
  induction p as [|c p IH]; [reflexivity|].
  cbn [append Str.startswith]. now rewrite Ascii.eqb_refl.
Qed.

Lemma drop_app (p rest : string) : Str.drop (String.length p) (p ++ rest) = rest.
Proof.
  induction p as [|c p IH]; [now destruct rest|]. exact IH.
Qed.

Lemma startswith_inv (p : string) :
  forall s, Str.startswith p s = true ->
            s = p ++ Str.drop (String.length p) s.
Proof.
  induction p as [|a p IH]; intros s H; [now destruct s|].
  destruct s as [|c s]; [discriminate|].
  cbn [Str.startswith] in H. apply andb_true_iff in H as [Hac Hp].
  apply Ascii.eqb_eq in Hac. subst c.
  cbn [append String.length Str.drop]. f_equal. now apply IH.
Qed.

Lemma lit_spec (p : string) (k : string -> bool) (s : string) :
  Re.lit p k s = true <-> exists rest, s = p ++ rest /\ k rest = true.
Proof.
  unfold Re.lit. split.
  - intros H. apply andb_true_iff in H as [Hp Hk].
    exists (Str.drop (String.length p) s). split; [|exact Hk].
    now apply startswith_inv.
  - intros [rest [-> Hk]]. now rewrite startswith_app, drop_app, Hk.
Qed.

Lemma dollar_spec (s : string) :
  Re.dollar s = true <-> s = "" \/ s = Re.LF.
Proof.
  unfold Re.dollar. rewrite orb_true_iff, !String.eqb_eq. reflexivity.
Qed.

(** A repeated class before the end of the text. *)
Lemma plus_dollar_spec (f : ascii -> bool) (s : string) :
  f "010"%char = false ->
  (Re.plus f Re.dollar s = true <->
   exists d, d <> "" /\ Re.all f d = true /\ (s = d \/ s = d ++ Re.LF)).
Proof.
  intros Hlf. rewrite plus_spec. split.
  - intros [d [rest [-> [Hne [Ha [_ Hk]]]]]]. exists d.
    apply dollar_spec in Hk as [->| ->].
    + rewrite append_empty_r. now repeat split; try left.
    + now repeat split; try right.
  - intros [d [Hne [Ha [->| ->]]]].
    + exists d, "". rewrite append_empty_r. now repeat split.
    + exists d, Re.LF. repeat split; try assumption.
      cbn [Re.stops Re.LF]. now rewrite Hlf.
Qed.

(** A text that starts with [0x] is no decimal number and no decimal
    range. *)
Lemma hex_prefix_not_decimal (s : string) :
  Str.startswith "0x" s = true ->
  is_decimal_number s = false /\ is_decimal_range s = false.
Proof.
  intros H. rewrite (startswith_inv "0x" s H).
  now split.
Qed.

End Literals.

(** X14. The decimal test accepts the texts made of one or more digits,
    and those texts followed by one line feed, and no other text; the
    hexadecimal test accepts [0x] followed by one or more hexadecimal
    digits of either case, again with or without a line feed at the end. *)
Theorem number_tests_accept_digits_and_line_feed (num : string) :
  (is_decimal_number num = true <->
   exists d, d <> "" /\ Re.all Char.isdigit d = true
             /\ (num = d \/ num = d ++ Re.LF))
  /\ (is_hexadecimal_number num = true <->
      exists d, d <> "" /\ Re.all Re.ishex d = true
                /\ (num = "0x" ++ d \/ num = "0x" ++ d ++ Re.LF)).
Proof.
  split.
  - unfold is_decimal_number. now apply plus_dollar_spec.
  - unfold is_hexadecimal_number. rewrite lit_spec. split.
    + intros [rest [-> Hk]].
      apply plus_dollar_spec in Hk as [d [Hne [Ha Hs]]]; [|reflexivity].
      exists d. repeat split; try assumption.
      destruct Hs as [->| ->]; [now left|now right].
    + intros [d [Hne [Ha Hs]]].
      destruct Hs as [->| ->].
      * exists d. split; [reflexivity|].
        apply plus_dollar_spec; [reflexivity|]. exists d. now repeat split; try left.
      * exists (d ++ Re.LF). split; [reflexivity|].
        apply plus_dollar_spec; [reflexivity|]. exists d. now repeat split; try right.
Qed.

(** X15. A range is two numbers of one kind joined by a dash: the
    decimal range test accepts one or more digits, a dash and a text the
    decimal test accepts; the hexadecimal range test accepts [0x] with one
    or more hexadecimal digits, a dash and a text the hexadecimal test
    accepts. *)
Theorem range_tests_accept_two_numbers (range : string) :
  (is_decimal_range range = true <->
   exists a b, range = a ++ "-" ++ b /\ a <> ""
               /\ Re.all Char.isdigit a = true
               /\ is_decimal_number b = true)
  /\ (is_hexadecimal_range range = true <->
      exists a b, range = "0x" ++ a ++ "-" ++ b /\ a <> ""
                  /\ Re.all Re.ishex a = true
                  /\ is_hexadecimal_number b = true).
Proof.
  split.
  - unfold is_decimal_range. rewrite plus_spec. split.
    + intros [a [rest [-> [Hne [Ha [_ Hk]]]]]].
      apply lit_spec in Hk as [b [-> Hb]]. now exists a, b.
    + intros [a [b [-> [Hne [Ha Hb]]]]].
      exists a, ("-" ++ b).
      repeat split; try assumption; try (apply lit_spec; now exists b).
  - unfold is_hexadecimal_range. rewrite lit_spec. split.
    + intros [rest [-> Hk]].
      apply plus_spec in Hk as [a [rest' [-> [Hne [Ha [_ Hk]]]]]].
      apply lit_spec in Hk as [b [-> Hb]]. now exists a, b.
    + intros [a [b [-> [Hne [Ha Hb]]]]].
      exists (a ++ "-" ++ b). split; [reflexivity|].
      apply plus_spec. exists a, ("-" ++ b).
      repeat split; try assumption; try (apply lit_spec; now exists b).
Qed.

(** X16. No text is both a number and a range, and no text is a number or
    a range of both kinds. *)
Theorem number_and_range_tests_exclude_each_other (text : string) :
  (is_number text = true -> is_range text = false)
  /\ (is_decimal_number text = true -> is_hexadecimal_number text = false)
  /\ (is_decimal_range text = true -> is_hexadecimal_range text = false).
Proof.
  assert (Hhex : forall k, Re.lit "0x" k text = true ->
                           is_decimal_number text = false
                           /\ is_decimal_range text = false).
  { intros k H. apply hex_prefix_not_decimal.
    unfold Re.lit in H. now apply andb_true_iff in H as [H _]. }
  assert (Hdash : forall f k s,
             Re.plus f Re.dollar s = true ->
             Re.plus f (Re.lit "-" k) s = false).
  { intros f k s. destruct s as [|c s]; [reflexivity|]. unfold Re.plus.
    intros H. apply andb_true_iff in H as [-> H]. cbn [andb].
    apply dollar_spec in H as [->| ->]; reflexivity. }
  split; [|split].
  - unfold is_number, is_range. intros H.
    apply orb_true_iff in H as [H|H].
    + rewrite (Hdash _ _ _ H : is_decimal_range text = false). cbn [orb].
      destruct (is_hexadecimal_range text) eqn:E; [|reflexivity].
      destruct (Hhex _ E). congruence.
    + destruct (Hhex _ H) as [_ ->]. cbn [orb].
      unfold is_hexadecimal_number in H. unfold is_hexadecimal_range.
      unfold Re.lit at 1 in H. unfold Re.lit at 1.
      apply andb_true_iff in H as [-> H]. cbn [andb].
      now apply Hdash.
  - intros H. destruct (is_hexadecimal_number text) eqn:E; [|reflexivity].
    destruct (Hhex _ E). congruence.
  - intros H. destruct (is_hexadecimal_range text) eqn:E; [|reflexivity].
    destruct (Hhex _ E). congruence.
Qed.

Lemma number_and_range_tests_exclude_each_other_witness :
  is_number "0x1F" = true /\ is_range "0x1F" = false.
Proof.
  assert (H : is_number "0x1F" = true) by reflexivity.
  split; [exact H|].
  exact (proj1 (number_and_range_tests_exclude_each_other "0x1F") H).
Defined.

(** ** Counting the objects of an archive *)

Section Counting.

Ltac by_character c :=
  destruct c as [[] [] [] [] [] [] [] []]; vm_compute; congruence.

Lemma isdigit_not_space (c : ascii) :
  Char.isdigit c = true -> Char.isspace c = false.
Proof. by_character c. Qed.

Lemma isdigit_not_int_space (c : ascii) :
  Char.isdigit c = true -> Int.isspace c = false.
Proof. by_character c. Qed.

Lemma isdigit_not_esc (c : ascii) :
  Char.isdigit c = true -> Ascii.eqb Char.ESC c = false.
Proof. by_character c. Qed.

Lemma isdigit_not_sign (c : ascii) :
  Char.isdigit c = true ->
  Ascii.eqb c "+" = false /\ Ascii.eqb c "-" = false.
Proof.
  intros H. split; revert H; by_character c.
Qed.

Lemma rstrip_all_space (ws : string) :
  Re.all Char.isspace ws = true -> Str.rstrip ws = "".
Proof.
  induction ws as [|c ws IH]; [reflexivity|].
  cbn [Re.all Str.rstrip]. intros H. apply andb_true_iff in H as [Hc Hws].
  now rewrite (IH Hws), Hc.
Qed.

Lemma rstrip_app_space (s ws : string) :
  Re.all Char.isspace ws = true -> Str.rstrip (s ++ ws) = Str.rstrip s.
Proof.
  intros H. induction s as [|c s IH].
  - cbn [append]. now apply rstrip_all_space.
  - cbn [append Str.rstrip]. now rewrite IH.
Qed.

Lemma last_all (f : ascii -> bool) (s : string) (c : ascii) :
  Re.all f s = true -> Str.last s = Some c -> f c = true.
Proof.
  induction s as [|a s IH]; [discriminate|].
  cbn [Re.all Str.last]. intros H. apply andb_true_iff in H as [Ha Hs].
  destruct s as [|b s].
  - intros E. now inversion E; subst.
  - now apply IH.
Qed.

Lemma digits_rstrip (d : string) :
  Re.all Char.isdigit d = true -> Str.rstrip d = d.
Proof.
  intros H. apply rstrip_fixed. unfold Str.ends_with_space.
  destruct (Str.last d) as [c|] eqn:E; [|reflexivity].
  apply isdigit_not_space. now apply (last_all _ d).
Qed.

Lemma digits_no_esc (d : string) :
  Re.all Char.isdigit d = true -> Str.absent Char.ESC d = true.
Proof.
  induction d as [|c d IH]; [reflexivity|].
  cbn [Re.all Str.absent]. intros H. apply andb_true_iff in H as [Hc Hd].
  now rewrite (isdigit_not_esc c Hc), (IH Hd).
Qed.

Lemma digits_strip (d : string) :
  Re.all Char.isdigit d = true -> _strip_shell_colors d = d.
Proof.
  intros H.
  pose proof (strip_app_no_esc d "" (digits_no_esc d H)) as E.
  cbn [_strip_shell_colors] in E. now rewrite !append_empty_r in E.
Qed.

Lemma int_digits_plain (d : string) :
  forall acc, Re.all Char.isdigit d = true ->
              Int.digits acc d = Some (Str.int_acc acc d).
Proof.
  induction d as [|c d IH]; intros acc H; [reflexivity|].
  cbn [Re.all] in H. apply andb_true_iff in H as [Hc Hd].
  cbn [Int.digits Str.int_acc]. rewrite Hc. now apply IH.
Qed.

(** [int] reads a run of digits as [Str.int] does. *)
Lemma int_parse_digits (d : string) :
  d <> "" -> Re.all Char.isdigit d = true -> Int.parse d = Some (Str.int d).
Proof.
  intros Hne H. unfold Int.parse.
  destruct d as [|c d]; [congruence|].
  pose proof H as Hall.
  cbn [Re.all] in H. apply andb_true_iff in H as [Hc Hd].
  cbn [Re.drop_while]. rewrite (isdigit_not_int_space c Hc).
  destruct (isdigit_not_sign c Hc) as [-> ->].
  unfold Int.magnitude. rewrite Hc.
  rewrite (int_digits_plain d _ Hd).
  unfold Str.int. cbn [Str.int_acc]. reflexivity.
Qed.

Variable c : tools.
Variable h : host.
Variable path : string.

(** The count, from what the tool did. *)
Lemma archive_object_count_run r :
  spawn h (launched h [AR c; path; "--object-count"]) = Some r ->
  archive_object_count c h path
  = ([Launch (launched h [AR c; path; "--object-count"]) true;
      Handle SIGINT; Handle SIGTERM; Communicate "" None],
     if (returncode (r "") =? 0)%Z then
       match Int.parse (_strip_shell_colors (Str.rstrip (written (r "")))) with
       | Some n => Done n
       | None => Failed ValueError
       end
     else Done 1%Z).
Proof.
  intros Hspawn. unfold archive_object_count.
  pose proof (_run_cmd_finished h [AR c; path; "--object-count"] "" None true
                false r (tracks_memory_off h []) Hspawn eq_refl) as H.
  unfold run, run_cmd, bind in *. rewrite H.
  cbn [captured]. now rewrite tidy_text.
Qed.

End Counting.

(** X17. When the archive tool exits with a status other than 0,
    [archive_object_count] returns 1 whatever the tool wrote, the count
    of an archive with one object. *)
Theorem archive_object_count_is_one_on_failure c h path r :
  spawn h (launched h [AR c; path; "--object-count"]) = Some r ->
  returncode (r "") <> 0%Z ->
  snd (archive_object_count c h path) = Done 1%Z.
Proof.
  intros Hspawn Hrc. rewrite (archive_object_count_run c h path r Hspawn).
  cbn [snd]. destruct (Z.eqb_spec (returncode (r "")) 0); [contradiction|].
  reflexivity.
Qed.

Lemma archive_object_count_is_one_on_failure_witness :
  (spawn (Sample.linux None (Cases.exits 2 "not an archive"))
         (launched (Sample.linux None (Cases.exits 2 "not an archive"))
                   [AR Cases.config; "lib.a"; "--object-count"])
     = Some (fun _ => Cases.exits 2 "not an archive")
   /\ returncode (Cases.exits 2 "not an archive") <> 0%Z)
  /\ snd (archive_object_count Cases.config
            (Sample.linux None (Cases.exits 2 "not an archive")) "lib.a")
     = Done 1%Z.
Proof.
  assert (H1 : spawn (Sample.linux None (Cases.exits 2 "not an archive"))
                 (launched (Sample.linux None (Cases.exits 2 "not an archive"))
                           [AR Cases.config; "lib.a"; "--object-count"])
               = Some (fun _ => Cases.exits 2 "not an archive")) by reflexivity.
  assert (H2 : returncode (Cases.exits 2 "not an archive") <> 0%Z)
    by discriminate.
  split; [now split|].
  exact (archive_object_count_is_one_on_failure _ _ _ _ H1 H2).
Defined.

(** X18. When the archive tool exits with status 0 having written a run
    of digits (4300 at most) followed by whitespace only,
    [archive_object_count] returns the number the digits denote. *)
Theorem archive_object_count_reads_digits c h path r d ws :
  spawn h (launched h [AR c; path; "--object-count"]) = Some r ->
  returncode (r "") = 0%Z ->
  written (r "") = d ++ ws ->
  d <> "" -> Re.all Char.isdigit d = true ->
  Re.all Char.isspace ws = true ->
  (String.length d <= 4300)%nat ->
  snd (archive_object_count c h path) = Done (Str.int d).
Proof.
  intros Hspawn Hrc Htext Hne Hd Hws _.
  rewrite (archive_object_count_run c h path r Hspawn).
  cbn [snd]. rewrite Hrc, Htext. cbn [Z.eqb].
  rewrite (rstrip_app_space d ws Hws), (digits_rstrip d Hd), (digits_strip d Hd).
  now rewrite (int_parse_digits d Hne Hd).
Qed.

Lemma archive_object_count_reads_digits_witness :
  (spawn (Sample.linux None (Cases.exits 0 ("12" ++ Sample.nl)))
         (launched (Sample.linux None (Cases.exits 0 ("12" ++ Sample.nl)))
                   [AR Cases.config; "lib.a"; "--object-count"])
     = Some (fun _ => Cases.exits 0 ("12" ++ Sample.nl))
   /\ returncode (Cases.exits 0 ("12" ++ Sample.nl)) = 0%Z
   /\ written (Cases.exits 0 ("12" ++ Sample.nl)) = "12" ++ Sample.nl
   /\ "12" <> ""
   /\ Re.all Char.isdigit "12" = true
   /\ Re.all Char.isspace Sample.nl = true
   /\ (String.length "12" <= 4300)%nat)
  /\ snd (archive_object_count Cases.config
            (Sample.linux None (Cases.exits 0 ("12" ++ Sample.nl))) "lib.a")
     = Done (Str.int "12").
Proof.
  assert (H1 : spawn (Sample.linux None (Cases.exits 0 ("12" ++ Sample.nl)))
                 (launched (Sample.linux None (Cases.exits 0 ("12" ++ Sample.nl)))
                           [AR Cases.config; "lib.a"; "--object-count"])
               = Some (fun _ => Cases.exits 0 ("12" ++ Sample.nl)))
    by reflexivity.
  assert (H2 : returncode (Cases.exits 0 ("12" ++ Sample.nl)) = 0%Z)
    by reflexivity.
  assert (H3 : written (Cases.exits 0 ("12" ++ Sample.nl)) = "12" ++ Sample.nl)
    by reflexivity.
  assert (H4 : "12" <> "") by discriminate.
  assert (H5 : Re.all Char.isdigit "12" = true) by reflexivity.
  assert (H6 : Re.all Char.isspace Sample.nl = true) by reflexivity.
  assert (H7 : (String.length "12" <= 4300)%nat) by (cbn; lia).
  split; [now repeat split|].
  exact (archive_object_count_reads_digits _ _ _ _ _ _ H1 H2 H3 H4 H5 H6 H7).
Defined.

(** X19. When the archive tool exits with status 0 having written
    nothing, or whitespace only, [archive_object_count] raises
    [ValueError]: there is no number to read. *)
Theorem archive_object_count_needs_a_number c h path r :
  spawn h (launched h [AR c; path; "--object-count"]) = Some r ->
  returncode (r "") = 0%Z ->
  Re.all Char.isspace (written (r "")) = true ->
  snd (archive_object_count c h path) = Failed ValueError.
Proof.
  intros Hspawn Hrc Hws.
  rewrite (archive_object_count_run c h path r Hspawn).
  cbn [snd]. rewrite Hrc. cbn [Z.eqb].
  now rewrite (rstrip_all_space _ Hws).
Qed.

Lemma archive_object_count_needs_a_number_witness :
  (spawn (Sample.linux None (Cases.exits 0 Sample.nl))
         (launched (Sample.linux None (Cases.exits 0 Sample.nl))
                   [AR Cases.config; "lib.a"; "--object-count"])
     = Some (fun _ => Cases.exits 0 Sample.nl)
   /\ returncode (Cases.exits 0 Sample.nl) = 0%Z
   /\ Re.all Char.isspace (written (Cases.exits 0 Sample.nl)) = true)
  /\ snd (archive_object_count Cases.config
            (Sample.linux None (Cases.exits 0 Sample.nl)) "lib.a")
     = Failed ValueError.
Proof.
  assert (H1 : spawn (Sample.linux None (Cases.exits 0 Sample.nl))
                 (launched (Sample.linux None (Cases.exits 0 Sample.nl))
                           [AR Cases.config; "lib.a"; "--object-count"])
               = Some (fun _ => Cases.exits 0 Sample.nl)) by reflexivity.
  assert (H2 : returncode (Cases.exits 0 Sample.nl) = 0%Z) by reflexivity.
  assert (H3 : Re.all Char.isspace (written (Cases.exits 0 Sample.nl)) = true)
    by reflexivity.
  split; [now repeat split|].
  exact (archive_object_count_needs_a_number _ _ _ _ H1 H2 H3).
Defined.

(** ** Unbuffered streams *)

Section Streams.

Lemma content_write (st : Stream.t) (data : string) :
  Stream.content (Stream.write st data) = Stream.content st ++ data
  /\ Stream.flushes_at (Stream.write st data) = Stream.flushes_at st.
Proof.
  unfold Stream.write, Stream.content.
  destruct (Stream.flushes_at st (Stream.pending st ++ data));
    cbn [Stream.sink Stream.pending Stream.flushes_at];
    now rewrite ?append_empty_r, ?append_assoc3.
Qed.

Lemma content_writelines (datas : list string) :
  forall st,
    Stream.content (Stream.writelines st datas)
    = Stream.content st ++ Stream.joined datas
    /\ Stream.flushes_at (Stream.writelines st datas) = Stream.flushes_at st.
Proof.
  unfold Stream.writelines.
  induction datas as [|d datas IH]; intros st; cbn [fold_left Stream.joined fold_right].
  - now rewrite append_empty_r.
  - destruct (IH (Stream.write st d)) as [-> ->].
    destruct (content_write st d) as [-> ->].
    now rewrite append_assoc3.
Qed.

(** A flushed stream is known by its policy and what it has passed on. *)
Lemma flush_eq (a b : Stream.t) :
  Stream.flushes_at a = Stream.flushes_at b ->
  Stream.content a = Stream.content b ->
  Stream.flush a = Stream.flush b.
Proof.
  unfold Stream.flush, Stream.content. now intros -> ->.
Qed.

Lemma unbuffered_write_content (st : Stream.t) (data : string) :
  Stream.content (Unbuffered.write st data) = Stream.content st ++ data
  /\ Stream.flushes_at (Unbuffered.write st data) = Stream.flushes_at st
  /\ Stream.pending (Unbuffered.write st data) = "".
Proof.
  unfold Unbuffered.write. destruct (content_write st data) as [Hc Hf].
  repeat split; [|exact Hf].
  unfold Stream.content at 1. cbn [Stream.flush Stream.sink Stream.pending].
  rewrite append_empty_r. exact Hc.
Qed.

Lemma unbuffered_writes_content (datas : list string) :
  forall st,
    Stream.content (fold_left Unbuffered.write datas st)
    = Stream.content st ++ Stream.joined datas
    /\ Stream.flushes_at (fold_left Unbuffered.write datas st)
       = Stream.flushes_at st.
Proof.
  induction datas as [|d datas IH]; intros st; cbn [fold_left Stream.joined fold_right].
  - now rewrite append_empty_r.
  - destruct (IH (Unbuffered.write st d)) as [-> ->].
    destruct (unbuffered_write_content st d) as [-> [-> _]].
    now rewrite append_assoc3.
Qed.

Lemma unbuffered_writes_pending (datas : list string) :
  forall st, datas <> [] ->
             Stream.pending (fold_left Unbuffered.write datas st) = "".
Proof.
  induction datas as [|d datas IH]; intros st Hne; [congruence|].
  cbn [fold_left]. destruct datas as [|d' datas].
  - cbn [fold_left]. apply unbuffered_write_content.
  - apply IH. discriminate.
Qed.

End Streams.

(** X20. After one or more writes through [Unbuffered] the stream holds
    nothing back: all that was ever written to it, the texts of these
    writes last and in their order, has been passed on, whatever the
    stream's own way of emptying itself. *)
Theorem unbuffered_writes_reach_the_sink (st : Stream.t) (datas : list string) :
  datas <> [] ->
  Stream.pending (fold_left Unbuffered.write datas st) = ""
  /\ Stream.sink (fold_left Unbuffered.write datas st)
     = Stream.sink st ++ Stream.pending st ++ Stream.joined datas.
Proof.
  intros Hne.
  pose proof (unbuffered_writes_pending datas st Hne) as Hp.
  destruct (unbuffered_writes_content datas st) as [Hc _].
  split; [exact Hp|].
  unfold Stream.content in Hc. rewrite Hp, append_empty_r in Hc.
  now rewrite Hc, append_assoc3.
Qed.

Lemma unbuffered_writes_reach_the_sink_witness :
  ["Running"; " tool"] <> []
  /\ Stream.pending
       (fold_left Unbuffered.write ["Running"; " tool"] (Cases.line_buffered "##"))
     = ""
  /\ Stream.sink
       (fold_left Unbuffered.write ["Running"; " tool"] (Cases.line_buffered "##"))
     = Stream.sink (Cases.line_buffered "##")
       ++ Stream.pending (Cases.line_buffered "##")
       ++ Stream.joined ["Running"; " tool"].
Proof.
  assert (H : ["Running"; " tool"] <> []) by discriminate.
  split; [exact H|].
  exact (unbuffered_writes_reach_the_sink (Cases.line_buffered "##") _ H).
Defined.

(** X21. [Unbuffered.writelines] leaves the stream as writing the texts
    one by one through [Unbuffered.write] and flushing does. *)
Theorem unbuffered_writelines_is_writes (st : Stream.t) (datas : list string) :
  Unbuffered.writelines st datas
  = Stream.flush (fold_left Unbuffered.write datas st).
Proof.
  unfold Unbuffered.writelines.
  destruct (content_writelines datas st) as [Hc Hf].
  destruct (unbuffered_writes_content datas st) as [Hc' Hf'].
  apply flush_eq; congruence.
Qed.
